(** * crypto-tracker: the price-history fetcher, the MACD/RSI indicator
      engine and the buy/sell record of [app.py], embedded in Rocq.

    Numbers.  The program computes on float64 columns.  A cell of a frame is
    kept here as an exact rational extended with the IEEE-754 special values
    ([NaN], the two infinities), and the indicator columns are computed on
    these cells exactly (no rounding, no overflow, one unsigned zero), while
    the special cases that the program relies on (division by zero,
    comparisons with NaN) follow IEEE-754.  Module [Binary64] has the
    float64 arithmetic itself: the rolling mean as pandas computes it, with
    its running compensated sum, the RSI lines on top of it, and the
    comparison behind the recorded recommendation, which [save_history]
    takes in float64.

    pandas.  [ewm(...).mean()], [diff], [where], [rolling(...).mean()] and
    the element-wise operators are library code; they are written out below
    as the library documents and computes them.

    Objects.  A DataFrame is a mutable object: frames live in a heap and are
    passed by reference, [df.copy()] allocates, [df[k] = v] updates in
    place. *)

From Stdlib Require Import Floats.
From Stdlib Require Import QArith Lia Lqa.
From stdpp Require Import base option list strings.

Set Warnings "-register-all".

Local Open Scope Q_scope.

(** ** Extended rationals standing for float64 values *)

Module XFloat.

Inductive xfloat : Type :=
| NaN
| PInf
| NInf
| Fin (q : Q).

Definition is_nan (x : xfloat) : bool :=
  match x with NaN => true | _ => false end.

Definition is_inf (x : xfloat) : bool :=
  match x with PInf | NInf => true | _ => false end.

Definition is_zero (q : Q) : bool := Qeq_bool q 0.

Definition xopp (x : xfloat) : xfloat :=
  match x with
  | NaN => NaN
  | PInf => NInf
  | NInf => PInf
  | Fin q => Fin (- q)
  end.

Definition xadd (x y : xfloat) : xfloat :=
  match x, y with
  | NaN, _ | _, NaN => NaN
  | PInf, NInf | NInf, PInf => NaN
  | PInf, _ | _, PInf => PInf
  | NInf, _ | _, NInf => NInf
  | Fin a, Fin b => Fin (a + b)
  end.

Definition xsub (x y : xfloat) : xfloat := xadd x (xopp y).

(* the infinity that has the sign of [q]; a zero counts as positive *)
Definition inf_signed (q : Q) : xfloat :=
  if Qle_bool 0 q then PInf else NInf.

Definition xmul (x y : xfloat) : xfloat :=
  match x, y with
  | NaN, _ | _, NaN => NaN
  | Fin a, Fin b => Fin (a * b)
  | Fin a, PInf | PInf, Fin a => if is_zero a then NaN else inf_signed a
  | Fin a, NInf | NInf, Fin a => if is_zero a then NaN else inf_signed (- a)
  | PInf, PInf | NInf, NInf => PInf
  | PInf, NInf | NInf, PInf => NInf
  end.

(* x / y: a non-zero number over zero is an infinity, 0/0 and inf/inf
   are NaN, a number over an infinity is zero *)
Definition xdiv (x y : xfloat) : xfloat :=
  match x, y with
  | NaN, _ | _, NaN => NaN
  | Fin a, Fin b =>
      if is_zero b then
        if is_zero a then NaN else inf_signed a
      else Fin (a / b)
  | Fin _, (PInf | NInf) => Fin 0
  | PInf, Fin b => inf_signed b
  | NInf, Fin b => inf_signed (- b)
  | (PInf | NInf), (PInf | NInf) => NaN
  end.

(* comparisons: anything compared with NaN is false *)
Definition xltb (x y : xfloat) : bool :=
  match x, y with
  | NaN, _ | _, NaN => false
  | _, NInf => false
  | NInf, _ => true
  | PInf, _ => false
  | Fin _, PInf => true
  | Fin a, Fin b => negb (Qle_bool b a)
  end.

Definition xleb (x y : xfloat) : bool :=
  match x, y with
  | NaN, _ | _, NaN => false
  | NInf, _ => true
  | _, PInf => true
  | _, NInf => false
  | PInf, _ => false
  | Fin a, Fin b => Qle_bool a b
  end.

(* float [==]: NaN differs from everything, itself included *)
Definition xeqb (x y : xfloat) : bool :=
  match x, y with
  | PInf, PInf | NInf, NInf => true
  | Fin a, Fin b => Qeq_bool a b
  | _, _ => false
  end.

End XFloat.
Export XFloat.

(** ** pandas Series operations *)

Module Pandas.

(* a float64 column; index labels are the positions 0..n-1 *)
Abbreviation Series := (list xfloat).

(* Window._prep_values: infinities are turned into NaN before a window
   aggregation runs *)
Definition prep_values (s : Series) : Series :=
  map (fun x => if is_inf x then NaN else x) s.

(* span -> smoothing factor: com = (span-1)/2, alpha = 1/(1+com) *)
Definition alpha_of_span (span : Q) : Q := 1 / (1 + (span - 1) / 2).

(* One round of the loop of ewm(adjust=False, ignore_na=False).mean():
   the state is (weighted, old_wt); the new weight is alpha. *)
Definition ewm_step (alpha : Q) (st : xfloat * Q) (cur : xfloat) : xfloat * Q :=
  let '(weighted, old_wt) := st in
  if is_nan weighted then
    (if is_nan cur then weighted else cur, old_wt)
  else
    let old_wt := old_wt * (1 - alpha) in
    if is_nan cur then (weighted, old_wt)
    else
      let weighted :=
        if xeqb weighted cur then weighted
        else xdiv (xadd (xmul (Fin old_wt) weighted) (xmul (Fin alpha) cur))
                  (Fin (old_wt + alpha)) in
      (weighted, 1).

Fixpoint ewm_loop (alpha : Q) (st : xfloat * Q) (vals : Series) : Series :=
  match vals with
  | [] => []
  | cur :: rest =>
      let st' := ewm_step alpha st cur in
      fst st' :: ewm_loop alpha st' rest
  end.

(* s.ewm(span=span, adjust=False).mean() *)
Definition ewm_mean (span : Q) (s : Series) : Series :=
  match prep_values s with
  | [] => []
  | v0 :: rest => v0 :: ewm_loop (alpha_of_span span) (v0, 1) rest
  end.

(* s.diff(): NaN first, then s[i] - s[i-1] *)
Fixpoint diff_from (prev : xfloat) (s : Series) : Series :=
  match s with
  | [] => []
  | x :: rest => xsub x prev :: diff_from x rest
  end.

Definition diff (s : Series) : Series :=
  match s with
  | [] => []
  | x :: rest => NaN :: diff_from x rest
  end.

(* s > c and s < c against a scalar *)
Definition gt_scalar (s : Series) (c : xfloat) : list bool := map (fun x => xltb c x) s.
Definition lt_scalar (s : Series) (c : xfloat) : list bool := map (fun x => xltb x c) s.

(* s.where(cond, other): keep s where cond holds, put other elsewhere *)
Definition where_ (s : Series) (cond : list bool) (other : xfloat) : Series :=
  zip_with (fun x (c : bool) => if c then x else other) s cond.

(* -s *)
Definition neg (s : Series) : Series := map xopp s.

(* a - b and a / b on two columns of one frame (same index) *)
Definition sub (a b : Series) : Series := zip_with xsub a b.
Definition div (a b : Series) : Series := zip_with xdiv a b.

(* c + s, c / s, c - s with a scalar on the left *)
Definition radd (c : xfloat) (s : Series) : Series := map (fun x => xadd c x) s.
Definition rdiv (c : xfloat) (s : Series) : Series := map (fun x => xdiv c x) s.
Definition rsub (c : xfloat) (s : Series) : Series := map (fun x => xsub c x) s.

Definition xsum (l : list xfloat) : xfloat := fold_left xadd l (Fin 0).

(* the entries of the window of width w that ends at position i *)
Definition window (w i : nat) (s : Series) : list xfloat :=
  drop (S i - w) (take (S i) s).

(* s.rolling(w).mean() on exact cells: min_periods is w; the value at i
   is the mean of the observations (non-NaN entries) of the window, NaN
   when there are fewer than w of them.  The float64 computation of the
   library, a running sum, is [Binary64.rolling_mean] below. *)
Definition rolling_mean_at (w : nat) (vals : Series) (i : nat) : xfloat :=
  let obs := filter (fun x => is_nan x = false) (window w i vals) in
  if (w <=? length obs)%nat
  then xdiv (xsum obs) (Fin (inject_Z (Z.of_nat (length obs))))
  else NaN.

Definition rolling_mean (w : nat) (s : Series) : Series :=
  map (rolling_mean_at w (prep_values s)) (seq 0 (length s)).

(* s.iloc[-1] *)
Definition iloc_last {A : Type} (s : list A) : option A := last s.

End Pandas.
Export Pandas.

(** ** The window aggregation in float64 *)

Module Binary64.

Local Open Scope float_scope.

(* the float64 nearest to a rational, ties to even: the quotient is taken
   to more than 64 significant bits with a sticky last bit, then rounded
   once *)
Definition of_Q (q : Q) : float :=
  let n := Qnum q in
  let d := Z.pos (Qden q) in
  let a := Z.abs n in
  let s := Z.max 0 (64 + Z.log2 d - Z.log2 a) in
  let m := (Z.shiftl a s / d)%Z in
  let m' := if (Z.shiftl a s mod d =? 0)%Z then m else Z.lor m 1 in
  SF2Prim (binary_normalize prec emax (Z.sgn n * m') (- s) false).

(* the float64 value of a cell *)
Definition to_f64 (x : xfloat) : float :=
  match x with
  | XFloat.NaN => nan
  | XFloat.PInf => infinity
  | XFloat.NInf => neg_infinity
  | Fin q => of_Q q
  end.

(* the float64 values of a column *)
Definition values (s : Series) : list float := map to_f64 s.

Definition signbit (x : float) : bool :=
  match classify x with
  | FloatClass.NInf | NNormal | NSubn | NZero => true
  | _ => false
  end.

(* the running state of roll_mean (pandas/_libs/window/aggregations.pyx) *)
Record mean_state : Type := mkMean {
  nobs : Z;
  neg_ct : Z;
  sum_x : float;
  compensation_add : float;
  compensation_remove : float;
  num_consecutive_same_value : Z;
  prev_value : float
}.

(* add_mean: Kahan summation; NaN is skipped *)
Definition add_mean (val : float) (st : mean_state) : mean_state :=
  if val =? val then
    let y := val - compensation_add st in
    let t := sum_x st + y in
    mkMean (nobs st + 1)
           (if signbit val then (neg_ct st + 1)%Z else neg_ct st)
           t
           (t - sum_x st - y)
           (compensation_remove st)
           (if val =? prev_value st
            then (num_consecutive_same_value st + 1)%Z else 1%Z)
           val
  else st.

(* remove_mean *)
Definition remove_mean (val : float) (st : mean_state) : mean_state :=
  if val =? val then
    let y := - val - compensation_remove st in
    let t := sum_x st + y in
    mkMean (nobs st - 1)
           (if signbit val then (neg_ct st - 1)%Z else neg_ct st)
           t
           (compensation_add st)
           (t - sum_x st - y)
           (num_consecutive_same_value st)
           (prev_value st)
  else st.

(* calc_mean *)
Definition calc_mean (minp : Z) (st : mean_state) : float :=
  if ((minp <=? nobs st)%Z && (0 <? nobs st)%Z)%bool then
    let result := sum_x st / of_uint63 (Uint63.of_Z (nobs st)) in
    if (nobs st <=? num_consecutive_same_value st)%Z then prev_value st
    else if ((neg_ct st =? 0)%Z && (result <? 0))%bool then 0
    else if ((neg_ct st =? nobs st)%Z && (0 <? result))%bool then 0
    else result
  else nan.

(* the state of the set-up round *)
Definition mean_setup (first : float) : mean_state :=
  mkMean 0 0 0 0 0 0 first.

(* round i of roll_mean for the bounds of a fixed window of width w >= 2
   that is closed on the right, start[i] = max(i + 1 - w, 0) and
   end[i] = i + 1: round 0 sets up, every later round removes
   values[i - w] when the window has left it behind and adds values[i] *)
Definition roll_round (w : nat) (values : list float) (i : nat) (val : float)
    (st : mean_state) : mean_state :=
  if (i =? 0)%nat then add_mean val (mean_setup val)
  else
    let st' :=
      if (w <=? i)%nat then
        match values !! (i - w)%nat with
        | Some old => remove_mean old st
        | None => st
        end
      else st in
    add_mean val st'.

(* the rounds from i on; [rest] is values[i:] *)
Fixpoint roll_mean (w : nat) (values : list float) (i : nat)
    (rest : list float) (st : mean_state) : list float :=
  match rest with
  | [] => []
  | val :: rest' =>
      let st1 := roll_round w values i val st in
      calc_mean (Z.of_nat w) st1 :: roll_mean w values (S i) rest' st1
  end.

(* Window._prep_values *)
Definition prep_values (values : list float) : list float :=
  map (fun v => if is_infinity v then nan else v) values.

(* s.rolling(w).mean(): min_periods is w *)
Definition rolling_mean (w : nat) (s : list float) : list float :=
  let values := prep_values s in
  roll_mean w values 0 values (mean_setup 0).

(* s.diff() *)
Fixpoint diff_from (prev : float) (s : list float) : list float :=
  match s with
  | [] => []
  | x :: rest => (x - prev) :: diff_from x rest
  end.

Definition diff (s : list float) : list float :=
  match s with
  | [] => []
  | x :: rest => nan :: diff_from x rest
  end.

(* delta.where(delta > 0, 0) and -delta.where(delta < 0, 0): the zeros of
   the second one are -0.0 *)
Definition gain (price : list float) : list float :=
  map (fun d => if 0 <? d then d else 0) (diff price).

Definition loss (price : list float) : list float :=
  map (fun d => - (if d <? 0 then d else 0)) (diff price).

(* the RSI column of calculate_macd_rsi *)
Definition rsi (price : list float) : list float :=
  let avg_gain := rolling_mean 14 (gain price) in
  let avg_loss := rolling_mean 14 (loss price) in
  let rs := zip_with PrimFloat.div avg_gain avg_loss in
  map (fun r => 100 - 100 / (1 + r)) rs.

End Binary64.

(** ** Python values, exceptions and the mutable world *)

Module Py.

(* the subclasses of Exception that the program can meet; [except
   Exception] catches every one of them *)
Inductive exn : Type :=
| ConnectionError
| Timeout
| JSONDecodeError
| KeyError (k : string)
| TypeError
| ValueError
| IndexError
| NameError.

(* a line of log.txt: logging.error(f"{prefix}{e}") writes the prefix
   followed by str(e), the message that the exception e carries *)
Inductive LogLine : Type :=
| ErrorLine (prefix : string) (e : exn).

(* the outcome of evaluating an expression *)
Inductive py (A : Type) : Type :=
| Ret (a : A)
| Raise (e : exn).
Arguments Ret {A} a.
Arguments Raise {A} e.

(* what json.loads produces; a JNumber is a Python int or float by its
   value (a float may be inf or nan); a JObject is a dict, its keys are
   distinct *)
Inductive json : Type :=
| JNull
| JBool (b : bool)
| JNumber (x : xfloat)
| JString (s : string)
| JArray (l : list json)
| JObject (l : list (string * json)).

Fixpoint assoc {A : Type} (k : string) (l : list (string * A)) : option A :=
  match l with
  | [] => None
  | (k', v) :: rest => if String.eqb k k' then Some v else assoc k rest
  end.

(* data[k] for a string key k *)
Definition json_getitem (data : json) (k : string) : py json :=
  match data with
  | JObject l =>
      match assoc k l with
      | Some v => Ret v
      | None => Raise (KeyError k)
      end
  | _ => Raise TypeError
  end.

(* a DataFrame: its columns in order, by name; every column has one
   entry per row.  A datetime column holds instants as milliseconds since
   the epoch, NaN standing for NaT. *)
Definition DataFrame : Type := list (string * Series).

Definition nrows (df : DataFrame) : nat :=
  match df with
  | [] => 0
  | (_, s) :: _ => length s
  end.

(* df.empty *)
Definition df_empty (df : DataFrame) : bool := (nrows df =? 0)%nat.

(* df[k] = v on the frame value: an existing column is replaced where it
   stands, a new one goes last *)
Fixpoint df_set (k : string) (v : Series) (df : DataFrame) : DataFrame :=
  match df with
  | [] => [(k, v)]
  | (k', s) :: rest =>
      if String.eqb k k' then (k', v) :: rest else (k', s) :: df_set k v rest
  end.

(* one row of the history file *)
Record HistoryRow : Type := mkRow {
  row_coin : string;        (* "幣種" *)
  row_id : string;          (* "ID" *)
  row_time : string;        (* "查詢時間" *)
  row_latest : xfloat;      (* "最新價格": the cell *)
  row_ma5 : float;          (* "5日均價": a float64 *)
  row_action : string       (* "推薦動作" *)
}.

Definition loc : Type := nat.

(* what the program can change: the objects it allocated, log.txt, and
   history.csv (None while the file does not exist).  The file is the
   frame that was written last, row by row: (n, r) is the record r after
   n round trips through the file (to_csv, then pd.read_csv, which infers
   the types of the cells again and may give back other cells than the
   record had). *)
Record World : Type := mkWorld {
  heap : list DataFrame;
  log : list LogLine;
  history : option (list (nat * HistoryRow))
}.

(* a computation: it may change the world and it returns or raises *)
Definition M (A : Type) : Type := World -> py A * World.

Definition ret {A : Type} (a : A) : M A := fun w => (Ret a, w).
Definition raise {A : Type} (e : exn) : M A := fun w => (Raise e, w).
Definition lift {A : Type} (r : py A) : M A := fun w => (r, w).

Definition bind {A B : Type} (m : M A) (k : A -> M B) : M B :=
  fun w =>
    match m w with
    | (Ret a, w') => k a w'
    | (Raise e, w') => (Raise e, w')
    end.

(* try: body / except Exception as e: handler *)
Definition try_except {A : Type} (body : M A) (handler : exn -> M A) : M A :=
  fun w =>
    match body w with
    | (Ret a, w') => (Ret a, w')
    | (Raise e, w') => handler e w'
    end.

Declare Scope py_scope.
Delimit Scope py_scope with py.
Notation "x <- m ; k" := (bind m (fun x => k))
  (at level 100, m at next level, right associativity) : py_scope.
Notation "m ;' k" := (bind m (fun _ => k))
  (at level 100, right associativity) : py_scope.

Local Open Scope py_scope.

(* a new object *)
Definition alloc (df : DataFrame) : M loc :=
  fun w => (Ret (length (heap w)),
            mkWorld (heap w ++ [df]) (log w) (history w)).

(* the object behind a reference; a reference to nothing is an unbound
   name *)
Definition deref (l : loc) : M DataFrame :=
  fun w =>
    match heap w !! l with
    | Some df => (Ret df, w)
    | None => (Raise NameError, w)
    end.

Definition store (l : loc) (df : DataFrame) : M unit :=
  fun w => (Ret tt, mkWorld (<[l := df]> (heap w)) (log w) (history w)).

(* df.copy() *)
Definition copy (l : loc) : M loc :=
  df <- deref l; alloc df.

(* df[k] *)
Definition getitem (l : loc) (k : string) : M Series :=
  df <- deref l;
  match assoc k df with
  | Some s => ret s
  | None => raise (KeyError k)
  end.

(* df[k] = v *)
Definition setitem (l : loc) (k : string) (v : Series) : M unit :=
  df <- deref l; store l (df_set k v df).

(* logging.error(f"{prefix}{e}"), with the file handler of
   logging.basicConfig *)
Definition logging_error (prefix : string) (e : exn) : M unit :=
  fun w =>
    (Ret tt, mkWorld (heap w) (log w ++ [ErrorLine prefix e]) (history w)).

End Py.
Export Py.

(** ** app.py *)

Module App.

Local Open Scope py_scope.

(* the arguments of requests.get *)
Inductive param : Type :=
| PStr (s : string)
| PInt (z : Z).

Record Request : Type := mkRequest {
  req_url : string;
  req_params : list (string * param);
  req_timeout : Z
}.

(* a response that arrived: its status line and what res.json() gives
   for its body (it raises when the body is not JSON) *)
Record Response : Type := mkResponse {
  status_code : Z;
  res_json : py json
}.

(* a row [t, p] of two JSON numbers *)
Definition price_row (j : json) : option (xfloat * xfloat) :=
  match j with
  | JArray [JNumber t; JNumber p] => Some (t, p)
  | _ => None
  end.

Fixpoint price_rows (l : list json) : option (list (xfloat * xfloat)) :=
  match l with
  | [] => Some []
  | j :: rest =>
      match price_row j, price_rows rest with
      | Some r, Some rs => Some (r :: rs)
      | _, _ => None
      end
  end.

(* Timestamp.max in nanoseconds; Timestamp.min is its opposite *)
Definition datetime_ns_max : Q := 9223372036854775807.

(* a millisecond instant that datetime64[ns] can hold: NaN becomes NaT, a
   number t must keep its t * 10^6 nanoseconds within Timestamp.min and
   Timestamp.max *)
Definition datetime_ok (x : xfloat) : bool :=
  match x with
  | NaN => true
  | Fin t =>
      Qle_bool (- datetime_ns_max) (t * 1000000)
      && Qle_bool (t * 1000000) datetime_ns_max
  | _ => false
  end.

(* pd.to_datetime(s, unit='ms') on a numeric column: it raises
   OutOfBoundsDatetime, a ValueError, when an instant cannot be held *)
Fixpoint to_datetime_ms (s : Series) : py Series :=
  match s with
  | [] => Ret []
  | x :: rest =>
      if datetime_ok x then
        match to_datetime_ms rest with
        | Ret r => Ret (x :: r)
        | Raise e => Raise e
        end
      else Raise ValueError
  end.

Section Fetcher.

(* the network: what requests.get does with a request (it returns a
   response, or raises on a connection fault or a timeout) *)
Variable requests_get : Request -> py Response.

(* pd.DataFrame(v, columns=[c1, c2]) for a value v that is not a list of
   rows of two numbers: the library decides (it raises, or builds some
   frame) *)
Variable DataFrame_other : json -> string -> string -> py DataFrame.

(* pd.DataFrame(v, columns=[c1, c2]) *)
Definition pd_DataFrame (v : json) (c1 c2 : string) : py DataFrame :=
  match v with
  | JArray l =>
      match price_rows l with
      | Some rows => Ret [(c1, map fst rows); (c2, map snd rows)]
      | None => DataFrame_other v c1 c2
      end
  | _ => DataFrame_other v c1 c2
  end.

Definition get_price_history (coin_id : string) (days : Z) (vs_currency : string)
  : M (option loc) :=
  try_except
    (let url := "https://api.coingecko.com/api/v3/coins/" +:+ coin_id +:+ "/market_chart" in
     let params := [("vs_currency", PStr vs_currency); ("days", PInt days);
                    ("interval", PStr "daily")] in
     res <- lift (requests_get (mkRequest url params 10));
     data <- lift (res_json res);
     prices <- lift (json_getitem data "prices");
     frame <- lift (pd_DataFrame prices "時間戳" "價格");
     df <- alloc frame;
     t <- getitem df "時間戳";
     t' <- lift (to_datetime_ms t);
     setitem df "時間戳" t' ;'
     ret (Some df))
    (fun e =>
       logging_error "get_price_history error: " e ;'
       ret None).

End Fetcher.

Definition calculate_macd_rsi (df : loc) : M loc :=
  df <- copy df;
  price <- getitem df "價格";
  setitem df "EMA12" (ewm_mean 12 price) ;'
  price <- getitem df "價格";
  setitem df "EMA26" (ewm_mean 26 price) ;'
  ema12 <- getitem df "EMA12";
  ema26 <- getitem df "EMA26";
  setitem df "MACD" (sub ema12 ema26) ;'
  macd <- getitem df "MACD";
  setitem df "Signal" (ewm_mean 9 macd) ;'
  price <- getitem df "價格";
  let delta := diff price in
  let gain := where_ delta (gt_scalar delta (Fin 0)) (Fin 0) in
  let loss := neg (where_ delta (lt_scalar delta (Fin 0)) (Fin 0)) in
  let avg_gain := rolling_mean 14 gain in
  let avg_loss := rolling_mean 14 loss in
  let rs := div avg_gain avg_loss in
  setitem df "RSI" (rsub (Fin 100) (rdiv (Fin 100) (radd (Fin 1) rs))) ;'
  ret df.

(* s.iloc[-1] raises IndexError on an empty column *)
Definition iloc_m1 {A : Type} (s : list A) : M A :=
  match iloc_last s with
  | Some x => ret x
  | None => raise IndexError
  end.

(* pd.read_csv(file_path): every row of the file has gone through the
   file once more *)
Definition read_csv (rows : list (nat * HistoryRow)) : list (nat * HistoryRow) :=
  map (fun nr => (S (fst nr), snd nr)) rows.

(* to_csv of pd.concat([df_old, df_history]) with df_old read from the
   file, or to_csv of the new row alone when history.csv does not exist.
   The file is one that the program wrote, and the file system does not
   fail. *)
Definition append_history (r : HistoryRow) : M unit :=
  fun w =>
    (Ret tt,
     mkWorld (heap w) (log w)
       (Some (match history w with
              | Some old => read_csv old ++ [(0%nat, r)]
              | None => [(0%nat, r)]
              end))).

(* [now] is datetime.datetime.now().strftime(...) at the call; the
   5-sample mean and the comparison with it are those of float64 *)
Definition save_history (now : string) (coin_id coin_name : string) (df : loc)
  : M unit :=
  price <- getitem df "價格";
  latest <- iloc_m1 price;
  price <- getitem df "價格";
  ma5 <- iloc_m1 (Binary64.rolling_mean 5 (Binary64.values price));
  price <- getitem df "價格";
  latest' <- iloc_m1 price;
  price <- getitem df "價格";
  ma5' <- iloc_m1 (Binary64.rolling_mean 5 (Binary64.values price));
  let record :=
    mkRow coin_name coin_id now latest ma5
          (if PrimFloat.ltb (Binary64.to_f64 latest') ma5'
           then "買進" else "賣出") in
  append_history record.

(* the query of the dashboard and of auto_query.py: fetch, and when a
   non-empty frame came back, compute the indicators and record the
   query; the result tells whether the query succeeded *)
Definition query (requests_get : Request -> py Response)
    (DataFrame_other : json -> string -> string -> py DataFrame)
    (now : string) (coin_id coin_name : string) (days : Z) : M bool :=
  df <- get_price_history requests_get DataFrame_other coin_id days "usd";
  match df with
  | None => ret false
  | Some df =>
      frame <- deref df;
      if negb (df_empty frame) then
        df <- calculate_macd_rsi df;
        save_history now coin_id coin_name df ;'
        ret true
      else ret false
  end.

End App.
Export App.

(** ** The words of the specification, and the finite fragment *)

Module Spec.

(* a price series: finite prices, in input order *)
Definition fin (l : list Q) : Series := map Fin l.

(* the column k of the frame at l *)
Definition column_of (w : World) (l : loc) (k : string) : option Series :=
  match heap w !! l with
  | Some df => assoc k df
  | None => None
  end.

Definition set_heap (w : World) (h : list DataFrame) : World :=
  mkWorld h (log w) (history w).

(* "ema[0] = price[0]; ema[i] = alpha*price[i] + (1-alpha)*ema[i-1]" *)
Definition is_ema (alpha : Q) (price ema : list Q) : Prop :=
  length ema = length price /\
  ema !! 0%nat = price !! 0%nat /\
  forall (i : nat) (p e : Q),
    price !! S i = Some p -> ema !! i = Some e ->
    exists e', ema !! S i = Some e' /\ e' == alpha * p + (1 - alpha) * e.

(* the loop of ewm on finite values: the running average after [p] *)
Definition ema_next (alpha e p : Q) : Q :=
  if Qeq_bool e p then e
  else (1 * (1 - alpha) * e + alpha * p) / (1 * (1 - alpha) + alpha).

Fixpoint ema_tail (alpha e : Q) (l : list Q) : list Q :=
  match l with
  | [] => []
  | p :: rest => ema_next alpha e p :: ema_tail alpha (ema_next alpha e p) rest
  end.

Definition ema (alpha : Q) (l : list Q) : list Q :=
  match l with
  | [] => []
  | p :: rest => p :: ema_tail alpha p rest
  end.

(* the frame that calculate_macd_rsi builds from the frame df whose
   price column is price *)
Definition rsi_column (price : Series) : Series :=
  let delta := diff price in
  let gain := where_ delta (gt_scalar delta (Fin 0)) (Fin 0) in
  let loss := neg (where_ delta (lt_scalar delta (Fin 0)) (Fin 0)) in
  let avg_gain := rolling_mean 14 gain in
  let avg_loss := rolling_mean 14 loss in
  let rs := div avg_gain avg_loss in
  rsub (Fin 100) (rdiv (Fin 100) (radd (Fin 1) rs)).

Definition macd_column (price : Series) : Series :=
  sub (ewm_mean 12 price) (ewm_mean 26 price).

Definition indicator_frame (df : DataFrame) (price : Series) : DataFrame :=
  df_set "RSI" (rsi_column price)
    (df_set "Signal" (ewm_mean 9 (macd_column price))
       (df_set "MACD" (macd_column price)
          (df_set "EMA26" (ewm_mean 26 price)
             (df_set "EMA12" (ewm_mean 12 price) df)))).

(* the locals avg_gain and avg_loss of calculate_macd_rsi *)
Definition avg_gain_of (price : Series) : Series :=
  let delta := diff price in
  rolling_mean 14 (where_ delta (gt_scalar delta (Fin 0)) (Fin 0)).

Definition avg_loss_of (price : Series) : Series :=
  let delta := diff price in
  rolling_mean 14 (neg (where_ delta (lt_scalar delta (Fin 0)) (Fin 0))).




(* "rs = avg_gain / avg_loss; rsi = 100 - 100/(1+rs)" *)
Definition rsi_val (avg_gain avg_loss : xfloat) : xfloat :=
  xsub (Fin 100) (xdiv (Fin 100) (xadd (Fin 1) (xdiv avg_gain avg_loss))).

(* every price is above the one before it *)
Definition increasing (price : list Q) : Prop :=
  forall (i : nat) (a b : Q),
    price !! i = Some a -> price !! S i = Some b -> a < b.

(* where_ and neg, entry by entry, as calculate_macd_rsi uses them *)
Definition gain_of_delta (x : xfloat) : xfloat :=
  if xltb (Fin 0) x then x else Fin 0.

Definition loss_of_delta (x : xfloat) : xfloat :=
  xopp (if xltb x (Fin 0) then x else Fin 0).

Definition gainQ (d : Q) : Q := if Qle_bool d 0 then 0 else d.
Definition lossQ (d : Q) : Q := - (if Qle_bool 0 d then 0 else d).

Fixpoint diffQ (prev : Q) (l : list Q) : list Q :=
  match l with
  | [] => []
  | x :: rest => (x - prev) :: diffQ x rest
  end.

Definition gains (price : list Q) : list Q :=
  match price with
  | [] => []
  | p :: rest => 0 :: map gainQ (diffQ p rest)
  end.

Definition losses (price : list Q) : list Q :=
  match price with
  | [] => []
  | p :: rest => (- 0) :: map lossQ (diffQ p rest)
  end.

(* the rolling mean of finite entries *)
Definition avgQ (w : nat) (l : list Q) (i : nat) : xfloat :=
  if (w <=? S i)%nat
  then Fin (fold_left Qplus (drop (S i - w) (take (S i) l)) 0
            / inject_Z (Z.of_nat w))
  else NaN.

(* an average of gains or of losses: undefined, or a number >= 0 *)
Definition nonneg_or_nan (x : xfloat) : Prop :=
  match x with
  | NaN => True
  | Fin a => 0 <= a
  | _ => False
  end.

(* history.csv after save_history has recorded [row]: the rows read from
   the old file, then the new record *)
Definition appended (file : option (list (nat * HistoryRow))) (row : HistoryRow)
  : option (list (nat * HistoryRow)) :=
  Some (match file with
        | Some old => read_csv old ++ [(0%nat, row)]
        | None => [(0%nat, row)]
        end).

(* the columns that calculate_macd_rsi adds *)
Definition indicator_columns : list string :=
  ["EMA12"; "EMA26"; "MACD"; "Signal"; "RSI"].

(* the request that get_price_history sends *)
Definition price_request (coin_id : string) (days : Z) (vs_currency : string)
  : Request :=
  mkRequest ("https://api.coingecko.com/api/v3/coins/" +:+ coin_id +:+ "/market_chart")
            [("vs_currency", PStr vs_currency); ("days", PInt days);
             ("interval", PStr "daily")]
            10.

(* the timestamp column of a new frame, converted *)
Definition datetime_column (frame : DataFrame) : py Series :=
  match assoc "時間戳" frame with
  | Some t => to_datetime_ms t
  | None => Raise (KeyError "時間戳")
  end.

(* the faults of a fetch: the request raises (connection fault, timeout),
   the body is not JSON, the parsed body has no "prices" entry, the frame
   cannot be built from it, or its timestamps cannot be converted *)
Inductive fetch_fault (requests_get : Request -> py Response)
    (DataFrame_other : json -> string -> string -> py DataFrame)
    (req : Request) : exn -> Prop :=
| fault_request (e : exn) :
    requests_get req = Raise e ->
    fetch_fault requests_get DataFrame_other req e
| fault_body (res : Response) (e : exn) :
    requests_get req = Ret res -> res_json res = Raise e ->
    fetch_fault requests_get DataFrame_other req e
| fault_prices (res : Response) (data : json) (e : exn) :
    requests_get req = Ret res -> res_json res = Ret data ->
    json_getitem data "prices" = Raise e ->
    fetch_fault requests_get DataFrame_other req e
| fault_frame (res : Response) (data prices : json) (e : exn) :
    requests_get req = Ret res -> res_json res = Ret data ->
    json_getitem data "prices" = Ret prices ->
    pd_DataFrame DataFrame_other prices "時間戳" "價格" = Raise e ->
    fetch_fault requests_get DataFrame_other req e
| fault_datetime (res : Response) (data prices : json) (frame : DataFrame) (e : exn) :
    requests_get req = Ret res -> res_json res = Ret data ->
    json_getitem data "prices" = Ret prices ->
    pd_DataFrame DataFrame_other prices "時間戳" "價格" = Ret frame ->
    datetime_column frame = Raise e ->
    fetch_fault requests_get DataFrame_other req e.

End Spec.
Export Spec.

(** ** Sample worlds *)

Module Samples.

(* the frame that get_price_history builds from rows (t, p) *)
Definition price_frame (ts ps : list Q) : DataFrame :=
  [("時間戳", fin ts); ("價格", fin ps)].

Definition world_of (df : DataFrame) : World := mkWorld [df] [] None.

Definition days3 : World := world_of (price_frame [0; 1; 2] [100; 102; 101]).

Definition rising15 : list Q :=
  [1; 2; 3; 4; 5; 6; 7; 8; 9; 10; 11; 12; 13; 14; 15].

Definition days15 : World := world_of (price_frame [] rising15).

(* fourteen rising prices, and fifteen equal ones *)
Definition rising14 : list Q :=
  [1; 2; 3; 4; 5; 6; 7; 8; 9; 10; 11; 12; 13; 14].


Definition flat15 : list Q :=
  [1; 1; 1; 1; 1; 1; 1; 1; 1; 1; 1; 1; 1; 1; 1].

Definition flat_days15 : World := world_of (price_frame [] flat15).

Definition empty_world : World := mkWorld [] [] None.

(* HTTP 200 with the body {"prices": []} *)
Definition empty_prices_server (r : Request) : py Response :=
  Ret (mkResponse 200 (Ret (JObject [("prices", JArray [])]))).

(* HTTP 500 with the body {"prices": [[0, 1]]} *)
Definition error_status_server (r : Request) : py Response :=
  Ret (mkResponse 500
         (Ret (JObject [("prices", JArray [JArray [JNumber (Fin 0); JNumber (Fin 1)]])]))).

(* the request times out *)
Definition silent_server (r : Request) : py Response := Raise Timeout.

(* a DataFrame constructor that rejects every other value *)
Definition strict_DataFrame (v : json) (c1 c2 : string) : py DataFrame :=
  Raise ValueError.

(* prices whose last one is below the mean of the last five *)
Definition dip6 : list Q := [5; 6; 7; 8; 9; 4].

Definition days_dip6 : World := world_of (price_frame [] dip6).

(* five prices whose last one equals the float64 mean of the five *)
Definition tie5 : list Q := [0.1; 0.5; 0.3; 0.3; 0.3].

Definition days_tie5 : World := world_of (price_frame [] tie5).

(* eighteen prices: a fall, a rise and a fall, then changes in the last
   place only *)
Definition jitter18 : list Q :=
  [412.1; 162.6; 458.5; 170.7; 170.7; 170.7; 170.7; 170.7;
   170.70000000000002; 170.7; 170.7; 170.70000000000002;
   170.70000000000002; 170.70000000000002; 170.70000000000002;
   170.70000000000002; 170.70000000000002; 170.70000000000002].

Definition empty_days : World := world_of (price_frame [] []).

End Samples.
Export Samples.

(** ** The rest of app.py *)

Module Dashboard.

Local Open Scope py_scope.

Section TopCoins.

Variable requests_get : Request -> py Response.

(* the request that get_top_coins sends *)
Definition coins_request (limit : Z) : Request :=
  mkRequest "https://api.coingecko.com/api/v3/coins/markets"
            [("vs_currency", PStr "usd"); ("order", PStr "market_cap_desc");
             ("per_page", PInt limit); ("page", PInt 1)]
            10.

(* The body of get_top_coins, which st.cache_data runs whenever it has no
   fresh entry for [limit]; the memoization itself is not part of this
   development. *)
Definition get_top_coins (limit : Z) : M json :=
  try_except
    (let url := "https://api.coingecko.com/api/v3/coins/markets" in
     let params := [("vs_currency", PStr "usd"); ("order", PStr "market_cap_desc");
                    ("per_page", PInt limit); ("page", PInt 1)] in
     res <- lift (requests_get (mkRequest url params 10));
     lift (res_json res))
    (fun e =>
       logging_error "get_top_coins error: " e ;'
       ret (JArray [])).

End TopCoins.

(* an entry of the coin list whose "id", "name" and "symbol" are strings *)
Record Coin : Type := mkCoin {
  coin_id_of : string;      (* coin["id"] *)
  coin_name_of : string;    (* coin["name"] *)
  coin_symbol_of : string   (* coin["symbol"] *)
}.

Section Selection.

(* str.upper *)
Variable upper : string -> string.

(* f"{c['name']} ({c['symbol'].upper()})" *)
Definition option_label (c : Coin) : string :=
  coin_name_of c +:+ " (" +:+ upper (coin_symbol_of c) +:+ ")".

(* options = [label(c) for c in filtered] *)
Definition options (filtered : list Coin) : list string :=
  map option_label filtered.

(* coin_id, coin_name = "", "" and the loop over filtered that stops at
   the first coin whose label is the selected one; st.selectbox gives None
   when there is no option *)
Fixpoint selected_coin (filtered : list Coin) (selected : option string)
  : string * string :=
  match filtered with
  | [] => ("", "")
  | coin :: rest =>
      if decide (Some (option_label coin) = selected)
      then (coin_id_of coin, coin_name_of coin)
      else selected_coin rest selected
  end.

End Selection.

(* the data of go.Candlestick(x=..., open=..., high=..., low=..., close=...) *)
Record Candlestick : Type := mkCandlestick {
  candle_x : Series;
  candle_open : Series;
  candle_high : Series;
  candle_low : Series;
  candle_close : Series
}.

(* draw_candlestick_chart up to the figure that it hands to
   st.plotly_chart: the result is the candlestick trace of that figure *)
Definition draw_candlestick_chart (df : loc) (coin_name : string) : M Candlestick :=
  df <- copy df;
  price <- getitem df "價格";
  setitem df "Open" price ;'
  price <- getitem df "價格";
  setitem df "High" price ;'
  price <- getitem df "價格";
  setitem df "Low" price ;'
  price <- getitem df "價格";
  setitem df "Close" price ;'
  x <- getitem df "時間戳";
  open <- getitem df "Open";
  high <- getitem df "High";
  low <- getitem df "Low";
  close <- getitem df "Close";
  ret (mkCandlestick x open high low close).

End Dashboard.
Export Dashboard.

(** ** Shapes of inputs *)

Module Shapes.

(* a row [t, p] of the "prices" list *)
Definition row_json (tp : xfloat * xfloat) : json :=
  JArray [JNumber (fst tp); JNumber (snd tp)].

(* a timestamp as the provider sends it: a whole number of milliseconds,
   no more than 9 * 10^12 of them away from the epoch (the years 1685 to
   2255) *)
Definition epoch_ms (x : xfloat) : bool :=
  match x with
  | Fin t => (Qden t =? 1)%positive && (Z.abs (Qnum t) <=? 9000000000000)%Z
  | _ => false
  end.

(* the frame of the rows [t, p] *)
Definition rows_frame (tps : list (xfloat * xfloat)) : DataFrame :=
  [("時間戳", map fst tps); ("價格", map snd tps)].

(* every price is below the one before it *)
Definition decreasing (price : list Q) : Prop :=
  forall (i : nat) (a b : Q),
    price !! i = Some a -> price !! S i = Some b -> b < a.

(* every entry lies between lo and hi *)
Definition within (lo hi : Q) (l : list Q) : Prop :=
  Forall (fun x => lo <= x <= hi) l.

(* the frame with the four candle columns added *)
Definition candle_frame (df : DataFrame) (price : Series) : DataFrame :=
  df_set "Close" price
    (df_set "Low" price (df_set "High" price (df_set "Open" price df))).

End Shapes.
Export Shapes.

(** ** More sample worlds *)

Module MoreSamples.

Definition falling15 : list Q :=
  [15; 14; 13; 12; 11; 10; 9; 8; 7; 6; 5; 4; 3; 2; 1].

Definition falling_days15 : World := world_of (price_frame [] falling15).

(* HTTP 200 with the body {"prices": [[0, 100], [1, 102], [2, 101]]} *)
Definition three_rows : list (xfloat * xfloat) :=
  [(Fin 0, Fin 100); (Fin 1, Fin 102); (Fin 2, Fin 101)].

Definition three_rows_server (r : Request) : py Response :=
  Ret (mkResponse 200 (Ret (JObject [("prices", JArray (map row_json three_rows))]))).

(* HTTP 200 with the body {"prices": [[1e16, 1]]}: the year 318857 *)
Definition far_future_server (r : Request) : py Response :=
  Ret (mkResponse 200
         (Ret (JObject [("prices",
                         JArray [row_json (Fin 10000000000000000, Fin 1)])]))).

(* a frame without a price column, and one whose price column is empty *)
Definition no_price_days : World := world_of [("時間戳", fin [0; 1])].

Definition no_rows_days : World := world_of [("時間戳", []); ("價格", [])].

Definition two_coins : list Coin :=
  [mkCoin "bitcoin" "Bitcoin" "btc"; mkCoin "ethereum" "Ethereum" "eth"].

(* a stand-in for str.upper that maps a to A and so on *)
Fixpoint ascii_upper (s : string) : string :=
  match s with
  | EmptyString => EmptyString
  | String c rest =>
      let n := Ascii.nat_of_ascii c in
      String (if (97 <=? n)%nat && (n <=? 122)%nat
              then Ascii.ascii_of_nat (n - 32) else c)
             (ascii_upper rest)
  end.

End MoreSamples.
Export MoreSamples.

(** ** Facts about the model *)

Local Open Scope py_scope.

Lemma assoc_df_set_eq (k : string) (v : Series) (df : DataFrame) :
  assoc k (df_set k v df) = Some v.
Proof.
  induction df as [|[k' s] rest IH]; simpl.
  - now rewrite String.eqb_refl.
  - destruct (String.eqb k k') eqn:E; simpl; rewrite E; auto.
Qed.

Lemma assoc_df_set_ne (k k' : string) (v : Series) (df : DataFrame) :
  k <> k' -> assoc k' (df_set k v df) = assoc k' df.
Proof.
  intros Hne. induction df as [|[k0 s] rest IH]; simpl.
  - destruct (String.eqb k' k) eqn:E; auto.
    apply String.eqb_eq in E. congruence.
  - destruct (String.eqb k k0) eqn:E; simpl.
    + apply String.eqb_eq in E. subst k0.
      destruct (String.eqb k' k) eqn:E'; auto.
      apply String.eqb_eq in E'. congruence.
    + now rewrite IH.
Qed.

Lemma bind_ret {A B : Type} (m : M A) (k : A -> M B) (w w' : World) (a : A) :
  m w = (Ret a, w') -> bind m k w = k a w'.
Proof. intros H. unfold bind. now rewrite H. Qed.

Lemma bind_raise {A B : Type} (m : M A) (k : A -> M B) (w w' : World) (e : exn) :
  m w = (Raise e, w') -> bind m k w = (Raise e, w').
Proof. intros H. unfold bind. now rewrite H. Qed.

Lemma getitem_run (w : World) (l : loc) (df : DataFrame) (k : string) (s : Series) :
  heap w !! l = Some df -> assoc k df = Some s -> getitem l k w = (Ret s, w).
Proof.
  intros Hl Hk. unfold getitem, bind, deref. now rewrite Hl, Hk.
Qed.

Lemma setitem_run (w : World) (l : loc) (df : DataFrame) (k : string) (v : Series) :
  heap w !! l = Some df ->
  setitem l k v w = (Ret tt, set_heap w (<[l := df_set k v df]> (heap w))).
Proof.
  intros Hl. unfold setitem, bind, deref. now rewrite Hl.
Qed.

Lemma copy_run (w : World) (l : loc) (df : DataFrame) :
  heap w !! l = Some df ->
  copy l w = (Ret (length (heap w)), set_heap w (heap w ++ [df])).
Proof.
  intros Hl. unfold copy, bind, deref. now rewrite Hl.
Qed.

Lemma heap_top (h : list DataFrame) (df : DataFrame) :
  (h ++ [df]) !! length h = Some df.
Proof. now rewrite list_lookup_middle. Qed.

Lemma heap_set_top (h : list DataFrame) (df df' : DataFrame) :
  <[length h := df']> (h ++ [df]) = h ++ [df'].
Proof.
  rewrite insert_app_r_alt by lia. now rewrite Nat.sub_diag.
Qed.

(* the run of calculate_macd_rsi on a frame that has a price column *)
Lemma calculate_macd_rsi_run (w : World) (l : loc) (df : DataFrame) (price : Series) :
  heap w !! l = Some df -> assoc "價格" df = Some price ->
  calculate_macd_rsi l w
  = (Ret (length (heap w)), set_heap w (heap w ++ [indicator_frame df price])).
Proof.
  intros Hl Hp. unfold calculate_macd_rsi.
  rewrite (bind_ret _ _ _ _ _ (copy_run w l df Hl)).
  set (l' := length (heap w)).
  assert (Hstep : forall (d : DataFrame) (k : string) (v : Series) (B : Type)
                    (c : unit -> M B),
             bind (setitem l' k v) c (set_heap w (heap w ++ [d]))
             = c tt (set_heap w (heap w ++ [df_set k v d]))).
  { intros d k v B c. erewrite bind_ret.
    2:{ apply setitem_run. simpl. apply heap_top. }
    simpl. unfold set_heap, l'. simpl. now rewrite heap_set_top. }
  assert (Hget : forall (d : DataFrame) (k : string) (s : Series) (B : Type)
                   (c : Series -> M B),
             assoc k d = Some s ->
             bind (getitem l' k) c (set_heap w (heap w ++ [d]))
             = c s (set_heap w (heap w ++ [d]))).
  { intros d k s B c Hk. erewrite bind_ret; [reflexivity|].
    eapply getitem_run; [apply heap_top | exact Hk]. }
  rewrite (Hget _ _ price) by exact Hp.
  rewrite Hstep.
  rewrite (Hget _ _ price) by (rewrite assoc_df_set_ne by discriminate; exact Hp).
  rewrite Hstep.
  rewrite (Hget _ _ (ewm_mean 12 price))
    by (rewrite assoc_df_set_ne by discriminate; apply assoc_df_set_eq).
  rewrite (Hget _ _ (ewm_mean 26 price)) by apply assoc_df_set_eq.
  rewrite Hstep.
  rewrite (Hget _ _ (macd_column price)) by apply assoc_df_set_eq.
  rewrite Hstep.
  rewrite (Hget _ _ price)
    by (rewrite !assoc_df_set_ne by discriminate; exact Hp).
  cbv zeta. rewrite Hstep. reflexivity.
Qed.

(** *** Exponential moving averages of finite columns *)

Lemma is_zero_false (q : Q) : ~ q == 0 -> is_zero q = false.
Proof.
  intros H. unfold is_zero. destruct (Qeq_bool q 0) eqn:E; auto.
  apply Qeq_bool_iff in E. contradiction.
Qed.

Lemma is_zero_true (q : Q) : q == 0 -> is_zero q = true.
Proof. intros H. unfold is_zero. now apply Qeq_bool_iff. Qed.

Lemma prep_values_fin (l : list Q) : prep_values (fin l) = fin l.
Proof.
  unfold prep_values, fin. rewrite map_map. reflexivity.
Qed.

Lemma xdiv_fin (a b : Q) : ~ b == 0 -> xdiv (Fin a) (Fin b) = Fin (a / b).
Proof. intros H. unfold xdiv. now rewrite is_zero_false. Qed.

Lemma weights_nonzero (alpha : Q) : ~ 1 * (1 - alpha) + alpha == 0.
Proof. intros H. ring_simplify in H. discriminate H. Qed.

Lemma ewm_step_fin (alpha e p : Q) :
  ewm_step alpha (Fin e, 1) (Fin p) = (Fin (ema_next alpha e p), 1).
Proof.
  unfold ewm_step, ema_next. cbn [is_nan xeqb xmul xadd].
  destruct (Qeq_bool e p); [reflexivity|].
  rewrite xdiv_fin; [reflexivity|]. apply weights_nonzero.
Qed.

Lemma ewm_loop_fin (alpha : Q) (l : list Q) :
  forall e : Q, ewm_loop alpha (Fin e, 1) (fin l) = fin (ema_tail alpha e l).
Proof.
  induction l as [|p rest IH]; intros e; [reflexivity|].
  cbn [fin map ewm_loop ema_tail]. rewrite ewm_step_fin. cbn [fst].
  f_equal. apply IH.
Qed.

Lemma ewm_mean_fin (span : Q) (l : list Q) :
  ewm_mean span (fin l) = fin (ema (alpha_of_span span) l).
Proof.
  unfold ewm_mean. rewrite prep_values_fin.
  destruct l as [|p rest]; [reflexivity|].
  cbn [fin map ema]. f_equal. apply ewm_loop_fin.
Qed.

Lemma ema_next_rec (alpha e p : Q) :
  ema_next alpha e p == alpha * p + (1 - alpha) * e.
Proof.
  unfold ema_next. destruct (Qeq_bool e p) eqn:E.
  - apply Qeq_bool_iff in E. rewrite <- E. ring.
  - field. intros H. ring_simplify in H. discriminate H.
Qed.

Lemma length_ema_tail (alpha : Q) (l : list Q) :
  forall e : Q, length (ema_tail alpha e l) = length l.
Proof.
  induction l as [|p rest IH]; intros e; simpl; [reflexivity|].
  now rewrite IH.
Qed.

Lemma length_ema (alpha : Q) (l : list Q) : length (ema alpha l) = length l.
Proof.
  destruct l as [|p rest]; simpl; [reflexivity|].
  now rewrite length_ema_tail.
Qed.

Lemma ema_tail_rec (alpha : Q) (l : list Q) :
  forall (e0 : Q) (i : nat) (p e : Q),
    (e0 :: l) !! S i = Some p ->
    (e0 :: ema_tail alpha e0 l) !! i = Some e ->
    exists e', (e0 :: ema_tail alpha e0 l) !! S i = Some e' /\
               e' == alpha * p + (1 - alpha) * e.
Proof.
  induction l as [|q rest IH]; intros e0 i p e Hp He.
  - destruct i; discriminate Hp.
  - destruct i as [|i].
    + simpl in Hp, He. injection Hp as ->. injection He as ->.
      exists (ema_next alpha e p). split; [reflexivity|]. apply ema_next_rec.
    + cbn [ema_tail]. change ((q :: rest) !! S i = Some p) in Hp.
      change ((ema_next alpha e0 q :: ema_tail alpha (ema_next alpha e0 q) rest) !! i
              = Some e) in He.
      change (exists e',
                 (ema_next alpha e0 q :: ema_tail alpha (ema_next alpha e0 q) rest) !! S i
                 = Some e' /\ e' == alpha * p + (1 - alpha) * e).
      destruct (IH (ema_next alpha e0 q) i p e) as [e' [H1 H2]].
      * exact Hp.
      * exact He.
      * exists e'. split; assumption.
Qed.

Lemma ema_is_ema (alpha : Q) (l : list Q) : is_ema alpha l (ema alpha l).
Proof.
  unfold is_ema. split; [apply length_ema|].
  destruct l as [|p0 rest].
  - split; [reflexivity|]. intros i p e Hp. destruct i; discriminate Hp.
  - split; [reflexivity|]. cbn [ema]. apply ema_tail_rec.
Qed.

Lemma is_ema_alpha (a a' : Q) (price es : list Q) :
  a == a' -> is_ema a price es -> is_ema a' price es.
Proof.
  intros Ha (Hlen & H0 & Hrec). split; [exact Hlen|]. split; [exact H0|].
  intros i p e Hp He. destruct (Hrec i p e Hp He) as [e' [H1 H2]].
  exists e'. split; [exact H1|]. rewrite H2, Ha. reflexivity.
Qed.

Lemma sub_fin (a b : list Q) : sub (fin a) (fin b) = fin (zip_with Qminus a b).
Proof.
  revert b. induction a as [|x a IH]; intros [|y b]; try reflexivity.
  unfold sub, fin in *. simpl. now rewrite IH.
Qed.

Lemma length_fin (l : list Q) : length (fin l) = length l.
Proof. apply length_map. Qed.

(** *** The columns of the frame that calculate_macd_rsi returns *)

Lemma price_column_inv (w : World) (l : loc) (price : Series) :
  column_of w l "價格" = Some price ->
  exists df, heap w !! l = Some df /\ assoc "價格" df = Some price.
Proof.
  unfold column_of. destruct (heap w !! l) as [df|]; [|discriminate].
  intros H. now exists df.
Qed.

Lemma column_of_top (w : World) (df : DataFrame) (k : string) :
  column_of (set_heap w (heap w ++ [df])) (length (heap w)) k = assoc k df.
Proof. unfold column_of. simpl. now rewrite heap_top. Qed.

Lemma indicator_frame_EMA12 (df : DataFrame) (price : Series) :
  assoc "EMA12" (indicator_frame df price) = Some (ewm_mean 12 price).
Proof.
  unfold indicator_frame.
  rewrite !assoc_df_set_ne by discriminate. apply assoc_df_set_eq.
Qed.

Lemma indicator_frame_EMA26 (df : DataFrame) (price : Series) :
  assoc "EMA26" (indicator_frame df price) = Some (ewm_mean 26 price).
Proof.
  unfold indicator_frame.
  rewrite !assoc_df_set_ne by discriminate. apply assoc_df_set_eq.
Qed.

Lemma indicator_frame_MACD (df : DataFrame) (price : Series) :
  assoc "MACD" (indicator_frame df price) = Some (macd_column price).
Proof.
  unfold indicator_frame.
  rewrite !assoc_df_set_ne by discriminate. apply assoc_df_set_eq.
Qed.

Lemma indicator_frame_Signal (df : DataFrame) (price : Series) :
  assoc "Signal" (indicator_frame df price)
  = Some (ewm_mean 9 (macd_column price)).
Proof.
  unfold indicator_frame.
  rewrite !assoc_df_set_ne by discriminate. apply assoc_df_set_eq.
Qed.

Lemma indicator_frame_RSI (df : DataFrame) (price : Series) :
  assoc "RSI" (indicator_frame df price) = Some (rsi_column price).
Proof. unfold indicator_frame. apply assoc_df_set_eq. Qed.

Lemma alpha_12 : alpha_of_span 12 == 2 / (12 + 1).
Proof. reflexivity. Qed.

Lemma alpha_26 : alpha_of_span 26 == 2 / (26 + 1).
Proof. reflexivity. Qed.

Lemma alpha_9 : alpha_of_span 9 == 2 / (9 + 1).
Proof. reflexivity. Qed.

(** *** The rolling mean in float64 *)






Lemma length_roll_mean (w : nat) (values rest : list float) :
  forall (i : nat) (st : Binary64.mean_state),
    length (Binary64.roll_mean w values i rest st) = length rest.
Proof.
  induction rest as [|val rest IH]; intros i st; [reflexivity|].
  cbn [Binary64.roll_mean length]. cbv zeta. now rewrite IH.
Qed.

Lemma length_rolling_mean64 (w : nat) (s : list float) :
  length (Binary64.rolling_mean w s) = length s.
Proof.
  unfold Binary64.rolling_mean. cbv zeta.
  rewrite length_roll_mean. unfold Binary64.prep_values. apply length_map.
Qed.

Lemma last_rolling_mean64 (w : nat) (s : list float) :
  s <> [] -> exists m : float, iloc_last (Binary64.rolling_mean w s) = Some m.
Proof.
  intros Hne. unfold iloc_last. rewrite last_lookup.
  apply lookup_lt_is_Some_2. rewrite length_rolling_mean64.
  destruct s; [congruence|simpl; lia].
Qed.



(** ** Properties of the program *)

(** C1.  For every price series (the non-empty ones in particular), the
    columns EMA12 and EMA26 of the frame that calculate_macd_rsi returns
    follow ema[0] = price[0], ema[i] = a*price[i] + (1-a)*ema[i-1] with
    a = 2/(p+1), p = 12 and p = 26; the seed is the first price itself, and
    both columns have as many entries as the price column. *)
Theorem ema_columns_follow_recurrence (w : World) (l : loc) (price : list Q) :
  column_of w l "價格" = Some (fin price) ->
  exists (l' : loc) (w' : World) (ema12 ema26 : list Q),
    calculate_macd_rsi l w = (Ret l', w') /\
    column_of w' l' "EMA12" = Some (fin ema12) /\
    column_of w' l' "EMA26" = Some (fin ema26) /\
    is_ema (2 / (12 + 1)) price ema12 /\
    is_ema (2 / (26 + 1)) price ema26 /\
    length (fin ema12) = length (fin price) /\
    length (fin ema26) = length (fin price).
Proof.
  intros Hcol. destruct (price_column_inv _ _ _ Hcol) as [df [Hl Hp]].
  exists (length (heap w)), (set_heap w (heap w ++ [indicator_frame df (fin price)])).
  exists (ema (alpha_of_span 12) price), (ema (alpha_of_span 26) price).
  split; [now apply calculate_macd_rsi_run|].
  rewrite !column_of_top, indicator_frame_EMA12, indicator_frame_EMA26.
  rewrite !ewm_mean_fin, !length_fin, !length_ema.
  split; [reflexivity|]. split; [reflexivity|].
  split; [apply (is_ema_alpha _ _ _ _ alpha_12), ema_is_ema|].
  split; [apply (is_ema_alpha _ _ _ _ alpha_26), ema_is_ema|].
  split; reflexivity.
Qed.

Lemma ema_columns_follow_recurrence_witness :
  column_of days3 0%nat "價格" = Some (fin [100; 102; 101]) /\
  exists (l' : loc) (w' : World) (ema12 ema26 : list Q),
    calculate_macd_rsi 0%nat days3 = (Ret l', w') /\
    column_of w' l' "EMA12" = Some (fin ema12) /\
    column_of w' l' "EMA26" = Some (fin ema26) /\
    is_ema (2 / (12 + 1)) [100; 102; 101] ema12 /\
    is_ema (2 / (26 + 1)) [100; 102; 101] ema26 /\
    length (fin ema12) = length (fin [100; 102; 101]) /\
    length (fin ema26) = length (fin [100; 102; 101]).
Proof.
  split; [reflexivity|].
  apply (ema_columns_follow_recurrence days3 0%nat [100; 102; 101]).
  reflexivity.
Defined.

(** C3.  For every price series, the MACD column is the pointwise
    difference ema12 - ema26 of the 12-period and the 26-period EMA of the
    price (each seeded with price[0] and following the recurrence with
    a = 2/(p+1)), the Signal column is the 9-period EMA of the MACD column
    seeded with macd[0] under the same rule, and both hold a number (no
    NaN) at every index of the series. *)
Theorem macd_and_signal_columns (w : World) (l : loc) (price : list Q) :
  column_of w l "價格" = Some (fin price) ->
  exists (l' : loc) (w' : World) (ema12 ema26 macd signal : list Q),
    calculate_macd_rsi l w = (Ret l', w') /\
    column_of w' l' "EMA12" = Some (fin ema12) /\
    column_of w' l' "EMA26" = Some (fin ema26) /\
    column_of w' l' "MACD" = Some (fin macd) /\
    column_of w' l' "Signal" = Some (fin signal) /\
    is_ema (2 / (12 + 1)) price ema12 /\
    is_ema (2 / (26 + 1)) price ema26 /\
    length macd = length price /\
    length signal = length price /\
    (forall i : nat, (i < length price)%nat ->
       exists a b : Q,
         ema12 !! i = Some a /\ ema26 !! i = Some b /\
         macd !! i = Some (a - b)) /\
    is_ema (2 / (9 + 1)) macd signal.
Proof.
  intros Hcol. destruct (price_column_inv _ _ _ Hcol) as [df [Hl Hp]].
  exists (length (heap w)), (set_heap w (heap w ++ [indicator_frame df (fin price)])).
  set (e12 := ema (alpha_of_span 12) price).
  set (e26 := ema (alpha_of_span 26) price).
  exists e12, e26, (zip_with Qminus e12 e26).
  exists (ema (alpha_of_span 9) (zip_with Qminus e12 e26)).
  split; [now apply calculate_macd_rsi_run|].
  rewrite !column_of_top, indicator_frame_EMA12, indicator_frame_EMA26,
    indicator_frame_MACD, indicator_frame_Signal.
  unfold macd_column. rewrite !ewm_mean_fin. fold e12 e26.
  rewrite sub_fin, ewm_mean_fin.
  assert (Hlen : length (zip_with Qminus e12 e26) = length price).
  { rewrite length_zip_with. unfold e12, e26. rewrite !length_ema. lia. }
  do 4 (split; [reflexivity|]).
  split; [apply (is_ema_alpha _ _ _ _ alpha_12), ema_is_ema|].
  split; [apply (is_ema_alpha _ _ _ _ alpha_26), ema_is_ema|].
  split; [exact Hlen|].
  split; [now rewrite length_ema|].
  split; [|apply (is_ema_alpha _ _ _ _ alpha_9), ema_is_ema].
  intros i Hi.
  destruct (lookup_lt_is_Some_2 e12 i) as [a Ha];
    [unfold e12; now rewrite length_ema|].
  destruct (lookup_lt_is_Some_2 e26 i) as [b Hb];
    [unfold e26; now rewrite length_ema|].
  exists a, b. split; [exact Ha|]. split; [exact Hb|].
  rewrite lookup_zip_with, Ha, Hb. reflexivity.
Qed.

Lemma macd_and_signal_columns_witness :
  column_of days3 0%nat "價格" = Some (fin [100; 102; 101]) /\
  exists (l' : loc) (w' : World) (ema12 ema26 macd signal : list Q),
    calculate_macd_rsi 0%nat days3 = (Ret l', w') /\
    column_of w' l' "EMA12" = Some (fin ema12) /\
    column_of w' l' "EMA26" = Some (fin ema26) /\
    column_of w' l' "MACD" = Some (fin macd) /\
    column_of w' l' "Signal" = Some (fin signal) /\
    is_ema (2 / (12 + 1)) [100; 102; 101] ema12 /\
    is_ema (2 / (26 + 1)) [100; 102; 101] ema26 /\
    length macd = length [100; 102; 101] /\
    length signal = length [100; 102; 101] /\
    (forall i : nat, (i < length [100; 102; 101])%nat ->
       exists a b : Q,
         ema12 !! i = Some a /\ ema26 !! i = Some b /\
         macd !! i = Some (a - b)) /\
    is_ema (2 / (9 + 1)) macd signal.
Proof.
  split; [reflexivity|].
  apply (macd_and_signal_columns days3 0%nat [100; 102; 101]).
  reflexivity.
Defined.

(** *** The RSI column of a finite price column *)

Lemma where_map (s : Series) (f : xfloat -> bool) (other : xfloat) :
  where_ s (map f s) other = map (fun x => if f x then x else other) s.
Proof.
  unfold where_. induction s as [|x s IH]; simpl; [reflexivity|].
  now rewrite IH.
Qed.

Lemma gain_series (delta : Series) :
  where_ delta (gt_scalar delta (Fin 0)) (Fin 0) = map gain_of_delta delta.
Proof. unfold gt_scalar. now rewrite where_map. Qed.

Lemma loss_series (delta : Series) :
  neg (where_ delta (lt_scalar delta (Fin 0)) (Fin 0)) = map loss_of_delta delta.
Proof. unfold lt_scalar, neg. now rewrite where_map, map_map. Qed.

Lemma diff_from_fin (l : list Q) :
  forall p : Q, diff_from (Fin p) (fin l) = fin (diffQ p l).
Proof.
  induction l as [|x rest IH]; intros p; [reflexivity|].
  cbn [fin map diff_from diffQ]. f_equal. apply IH.
Qed.

Lemma gain_of_delta_fin (d : Q) : gain_of_delta (Fin d) = Fin (gainQ d).
Proof.
  unfold gain_of_delta, gainQ. cbn [xltb]. now destruct (Qle_bool d 0).
Qed.

Lemma loss_of_delta_fin (d : Q) : loss_of_delta (Fin d) = Fin (lossQ d).
Proof.
  unfold loss_of_delta, lossQ. cbn [xltb]. now destruct (Qle_bool 0 d).
Qed.

Lemma gain_fin (price : list Q) :
  map gain_of_delta (diff (fin price)) = fin (gains price).
Proof.
  destruct price as [|p rest]; [reflexivity|].
  cbn [fin map diff gains]. rewrite diff_from_fin. f_equal.
  unfold fin. rewrite !map_map. apply map_ext. intros d. apply gain_of_delta_fin.
Qed.

Lemma loss_fin (price : list Q) :
  map loss_of_delta (diff (fin price)) = fin (losses price).
Proof.
  destruct price as [|p rest]; [reflexivity|].
  cbn [fin map diff losses]. rewrite diff_from_fin. f_equal.
  unfold fin. rewrite !map_map. apply map_ext. intros d. apply loss_of_delta_fin.
Qed.

Lemma length_diffQ (l : list Q) : forall p : Q, length (diffQ p l) = length l.
Proof.
  induction l as [|x rest IH]; intros p; simpl; [reflexivity|]. now rewrite IH.
Qed.

Lemma length_gains (price : list Q) : length (gains price) = length price.
Proof.
  destruct price as [|p rest]; [reflexivity|].
  simpl. now rewrite length_map, length_diffQ.
Qed.

Lemma length_losses (price : list Q) : length (losses price) = length price.
Proof.
  destruct price as [|p rest]; [reflexivity|].
  simpl. now rewrite length_map, length_diffQ.
Qed.

Lemma filter_obs_fin (l : list Q) :
  filter (fun x => is_nan x = false) (fin l) = fin l.
Proof.
  induction l as [|x rest IH]; [reflexivity|].
  cbn [fin map]. rewrite filter_cons_True by reflexivity. f_equal. exact IH.
Qed.

Lemma fold_xadd_fin (l : list Q) :
  forall a : Q, fold_left xadd (fin l) (Fin a) = Fin (fold_left Qplus l a).
Proof.
  induction l as [|x rest IH]; intros a; [reflexivity|].
  cbn [fin map fold_left xadd]. apply IH.
Qed.

Lemma window_fin (w i : nat) (l : list Q) :
  window w i (fin l) = fin (drop (S i - w) (take (S i) l)).
Proof. unfold window, fin. now rewrite <- fmap_take, <- fmap_drop. Qed.

Lemma length_window (w i : nat) (l : list Q) :
  (i < length l)%nat ->
  length (drop (S i - w) (take (S i) l)) = Nat.min w (S i).
Proof. intros Hi. rewrite length_drop, length_take. lia. Qed.

Lemma inject_nat_nonzero (n : nat) : (0 < n)%nat -> ~ inject_Z (Z.of_nat n) == 0.
Proof.
  intros Hn H. unfold Qeq in H. simpl in H. lia.
Qed.

Lemma rolling_mean_at_fin (w i : nat) (l : list Q) :
  (0 < w)%nat -> (i < length l)%nat ->
  rolling_mean_at w (fin l) i = avgQ w l i.
Proof.
  intros Hw Hi. unfold rolling_mean_at, avgQ.
  rewrite window_fin, filter_obs_fin, length_fin, length_window by exact Hi.
  destruct (Nat.leb_spec w (S i)) as [Hle|Hgt].
  - replace (Nat.min w (S i)) with w by lia.
    rewrite Nat.leb_refl. unfold xsum. rewrite fold_xadd_fin.
    apply xdiv_fin. now apply inject_nat_nonzero.
  - replace (Nat.min w (S i)) with (S i) by lia.
    destruct (Nat.leb_spec w (S i)); [lia|reflexivity].
Qed.

Lemma rolling_mean_fin_lookup (w i : nat) (l : list Q) :
  (0 < w)%nat -> (i < length l)%nat ->
  rolling_mean w (fin l) !! i = Some (avgQ w l i).
Proof.
  intros Hw Hi. unfold rolling_mean.
  rewrite prep_values_fin, length_fin, list_lookup_fmap.
  rewrite lookup_seq_lt by exact Hi. simpl.
  now rewrite rolling_mean_at_fin.
Qed.

Lemma length_rolling_mean (w : nat) (s : Series) :
  length (rolling_mean w s) = length s.
Proof. unfold rolling_mean. now rewrite length_map, length_seq. Qed.

Lemma avg_gain_fin_lookup (price : list Q) (i : nat) :
  (i < length price)%nat ->
  avg_gain_of (fin price) !! i = Some (avgQ 14 (gains price) i).
Proof.
  intros Hi. unfold avg_gain_of. cbv zeta.
  rewrite gain_series, gain_fin.
  apply rolling_mean_fin_lookup; [lia|]. now rewrite length_gains.
Qed.

Lemma avg_loss_fin_lookup (price : list Q) (i : nat) :
  (i < length price)%nat ->
  avg_loss_of (fin price) !! i = Some (avgQ 14 (losses price) i).
Proof.
  intros Hi. unfold avg_loss_of. cbv zeta.
  rewrite loss_series, loss_fin.
  apply rolling_mean_fin_lookup; [lia|]. now rewrite length_losses.
Qed.

Lemma rsi_column_avg (price : Series) :
  rsi_column price
  = rsub (Fin 100) (rdiv (Fin 100) (radd (Fin 1)
      (div (avg_gain_of price) (avg_loss_of price)))).
Proof. reflexivity. Qed.

Lemma rsi_column_lookup (price : list Q) (i : nat) :
  (i < length price)%nat ->
  rsi_column (fin price) !! i
  = Some (rsi_val (avgQ 14 (gains price) i) (avgQ 14 (losses price) i)).
Proof.
  intros Hi. rewrite rsi_column_avg. unfold rsub, rdiv, radd, div.
  rewrite !list_lookup_fmap, lookup_zip_with.
  rewrite avg_gain_fin_lookup, avg_loss_fin_lookup by exact Hi.
  reflexivity.
Qed.

Lemma length_diff (s : Series) : length (diff s) = length s.
Proof.
  destruct s as [|x rest]; [reflexivity|]. simpl. f_equal.
  revert x. induction rest as [|y rest IH]; intros x; simpl; [reflexivity|].
  now rewrite IH.
Qed.

Lemma length_rsi_column (price : Series) :
  length (rsi_column price) = length price.
Proof.
  rewrite rsi_column_avg. unfold rsub, rdiv, radd, div, avg_gain_of, avg_loss_of.
  cbv zeta. rewrite !length_map, length_zip_with, !length_rolling_mean.
  rewrite gain_series, loss_series, !length_map, length_diff. lia.
Qed.

(** *** Bounds *)

Lemma Qle_bool_false (a b : Q) : Qle_bool a b = false -> b < a.
Proof.
  intros H. apply Qnot_le_lt. intros Hle.
  apply Qle_bool_iff in Hle. congruence.
Qed.

Lemma gainQ_nonneg (d : Q) : 0 <= gainQ d.
Proof.
  unfold gainQ. destruct (Qle_bool d 0) eqn:E; [apply Qle_refl|].
  apply Qlt_le_weak. now apply Qle_bool_false.
Qed.

Lemma lossQ_nonneg (d : Q) : 0 <= lossQ d.
Proof.
  unfold lossQ. destruct (Qle_bool 0 d) eqn:E; [discriminate|].
  apply Qle_bool_false in E. lra.
Qed.

Lemma gains_nonneg (price : list Q) : Forall (fun g => 0 <= g) (gains price).
Proof.
  destruct price as [|p rest]; [constructor|].
  cbn [gains]. constructor; [apply Qle_refl|].
  apply Forall_fmap, Forall_forall. intros d _. apply gainQ_nonneg.
Qed.

Lemma losses_nonneg (price : list Q) : Forall (fun g => 0 <= g) (losses price).
Proof.
  destruct price as [|p rest]; [constructor|].
  cbn [losses]. constructor; [discriminate|].
  apply Forall_fmap, Forall_forall. intros d _. apply lossQ_nonneg.
Qed.

Lemma fold_Qplus_ge (l : list Q) :
  Forall (fun g => 0 <= g) l -> forall a : Q, a <= fold_left Qplus l a.
Proof.
  induction 1 as [|x l Hx _ IH]; intros a; simpl; [apply Qle_refl|].
  apply Qle_trans with (a + x); [lra|apply IH].
Qed.

Lemma Qdiv_nonneg (a b : Q) : 0 <= a -> 0 < b -> 0 <= a / b.
Proof.
  intros Ha Hb. apply Qle_shift_div_l; [exact Hb|]. lra.
Qed.

Lemma inject_nat_pos (n : nat) : (0 < n)%nat -> 0 < inject_Z (Z.of_nat n).
Proof. intros Hn. unfold Qlt. simpl. lia. Qed.

Lemma avgQ_nonneg (w i : nat) (l : list Q) :
  (0 < w)%nat -> Forall (fun g => 0 <= g) l -> nonneg_or_nan (avgQ w l i).
Proof.
  intros Hw Hl. unfold avgQ. destruct (w <=? S i)%nat; [|exact I].
  cbn [nonneg_or_nan]. apply Qdiv_nonneg; [|now apply inject_nat_pos].
  apply fold_Qplus_ge. now apply Forall_drop, Forall_take.
Qed.

Lemma rsi_val_fin_pos (g a : Q) :
  0 <= g -> 0 < a ->
  rsi_val (Fin g) (Fin a) = Fin (100 + - (100 / (1 + g / a))) /\
  0 <= 100 + - (100 / (1 + g / a)) <= 100.
Proof.
  intros Hg Ha.
  assert (Hr : 0 <= g / a) by now apply Qdiv_nonneg.
  assert (H1 : 0 < 1 + g / a) by lra.
  split.
  - unfold rsi_val. rewrite xdiv_fin by lra. cbn [xadd].
    rewrite xdiv_fin by lra. reflexivity.
  - assert (Ht0 : 0 <= 100 / (1 + g / a)) by (apply Qdiv_nonneg; lra).
    assert (Ht1 : 100 / (1 + g / a) <= 100)
      by (apply Qle_shift_div_r; [exact H1 | lra]).
    split; lra.
Qed.

Lemma rsi_val_fin_zero_loss (g a : Q) :
  0 < g -> a == 0 -> rsi_val (Fin g) (Fin a) = Fin 100.
Proof.
  intros Hg Ha. unfold rsi_val, xdiv at 2.
  rewrite (is_zero_true a Ha), is_zero_false by lra.
  unfold inf_signed.
  assert (Hle : Qle_bool 0 g = true) by (apply Qle_bool_iff; lra).
  rewrite Hle. reflexivity.
Qed.

Lemma rsi_val_fin_flat (g a : Q) :
  g == 0 -> a == 0 -> rsi_val (Fin g) (Fin a) = NaN.
Proof.
  intros Hg Ha. unfold rsi_val, xdiv at 2.
  now rewrite (is_zero_true a Ha), (is_zero_true g Hg).
Qed.

(* the three cases of rs = avg_gain / avg_loss for averages that are
   numbers >= 0 *)
Lemma rsi_val_cases (g a : Q) :
  0 <= g -> 0 <= a ->
  (0 < a /\ rsi_val (Fin g) (Fin a) = Fin (100 + - (100 / (1 + g / a))) /\
     0 <= 100 + - (100 / (1 + g / a)) <= 100) \/
  (a == 0 /\ 0 < g /\ rsi_val (Fin g) (Fin a) = Fin 100) \/
  (a == 0 /\ g == 0 /\ rsi_val (Fin g) (Fin a) = NaN).
Proof.
  intros Hg Ha.
  destruct (Qlt_le_dec 0 a) as [Hpos|Hle].
  - left. split; [exact Hpos|]. now apply rsi_val_fin_pos.
  - assert (Ha0 : a == 0) by lra. right.
    destruct (Qlt_le_dec 0 g) as [Hgpos|Hgle].
    + left. split; [exact Ha0|]. split; [exact Hgpos|].
      now apply rsi_val_fin_zero_loss.
    + right. assert (Hg0 : g == 0) by lra.
      split; [exact Ha0|]. split; [exact Hg0|]. now apply rsi_val_fin_flat.
Qed.

Lemma rsi_val_nan_l (a : xfloat) : rsi_val NaN a = NaN.
Proof. reflexivity. Qed.

Lemma rsi_val_nan_r (g : xfloat) : rsi_val g NaN = NaN.
Proof. now destruct g. Qed.

Lemma rsi_val_bounds (g a : xfloat) :
  nonneg_or_nan g -> nonneg_or_nan a ->
  is_nan (rsi_val g a) = false ->
  xleb (Fin 0) (rsi_val g a) = true /\ xleb (rsi_val g a) (Fin 100) = true.
Proof.
  intros Hg Ha.
  destruct g as [| | |g]; try contradiction; [rewrite rsi_val_nan_l; discriminate|].
  destruct a as [| | |a]; try contradiction; [rewrite rsi_val_nan_r; discriminate|].
  cbn [nonneg_or_nan] in Hg, Ha.
  destruct (rsi_val_cases g a Hg Ha)
    as [(_ & -> & H0 & H100) | [(_ & _ & ->) | (_ & _ & ->)]].
  - intros _. cbn [xleb]. split; now apply Qle_bool_iff.
  - intros _. split; reflexivity.
  - discriminate.
Qed.

(* with exact means of the gains and of the losses, every value of the RSI
   column lies between 0 and 100 *)
Lemma rsi_bounds_in_exact_arithmetic (w : World) (l : loc) (price : list Q) :
  column_of w l "價格" = Some (fin price) ->
  exists (l' : loc) (w' : World) (rsi : Series),
    calculate_macd_rsi l w = (Ret l', w') /\
    column_of w' l' "RSI" = Some rsi /\
    forall (i : nat) (x : xfloat),
      rsi !! i = Some x -> is_nan x = false ->
      xleb (Fin 0) x = true /\ xleb x (Fin 100) = true.
Proof.
  intros Hcol. destruct (price_column_inv _ _ _ Hcol) as [df [Hl Hp]].
  exists (length (heap w)), (set_heap w (heap w ++ [indicator_frame df (fin price)])).
  exists (rsi_column (fin price)).
  split; [now apply calculate_macd_rsi_run|].
  split; [rewrite column_of_top; apply indicator_frame_RSI|].
  intros i x Hx.
  assert (Hi : (i < length price)%nat).
  { apply lookup_lt_Some in Hx.
    now rewrite length_rsi_column, length_fin in Hx. }
  rewrite rsi_column_lookup in Hx by exact Hi. injection Hx as <-.
  apply rsi_val_bounds; apply avgQ_nonneg;
    auto using gains_nonneg, losses_nonneg with lia.
Qed.

(** C4 does not hold of the program.  For the eighteen prices of
    [jitter18] the RSI at index 17, computed in float64 as the program
    computes it, has a value and the value is 200, above 100.  The mean of
    the 14 losses behind it is negative, although no loss is: the rolling
    mean is a running compensated sum from which the values that leave the
    window are subtracted, what is left of the earlier large losses is a
    rounding error below zero, and the clamp that would put 0 there is off
    because the zeros of the loss column are -0.0 and count as negative
    values.  With exact means the same cell holds 200/3. *)
Theorem rsi_leaves_the_range_0_100 :
  exists avg_gain avg_loss rsi : float,
    Binary64.rolling_mean 14 (Binary64.gain (Binary64.values (fin jitter18)))
      !! 17%nat = Some avg_gain /\
    Binary64.rolling_mean 14 (Binary64.loss (Binary64.values (fin jitter18)))
      !! 17%nat = Some avg_loss /\
    Binary64.rsi (Binary64.values (fin jitter18)) !! 17%nat = Some rsi /\
    PrimFloat.ltb 0 avg_gain = true /\
    PrimFloat.ltb avg_loss 0 = true /\
    rsi = 200%float /\
    PrimFloat.ltb 100 rsi = true /\
    exists x : Q, rsi_column (fin jitter18) !! 17%nat = Some (Fin x) /\
                  x == 200 / 3.
Proof.
  eexists. eexists. eexists.
  split; [vm_compute; reflexivity|].
  split; [vm_compute; reflexivity|].
  split; [vm_compute; reflexivity|].
  split; [vm_compute; reflexivity|].
  split; [vm_compute; reflexivity|].
  split; [vm_compute; reflexivity|].
  split; [vm_compute; reflexivity|].
  eexists. split; [vm_compute; reflexivity|]. vm_compute. reflexivity.
Qed.

(** *** Rising prices *)

Lemma increasing_tail (p : Q) (rest : list Q) :
  increasing (p :: rest) -> increasing rest.
Proof. intros H i a b Ha Hb. exact (H (S i) a b Ha Hb). Qed.

Lemma diffQ_pos (rest : list Q) :
  forall p : Q, increasing (p :: rest) -> Forall (fun d => 0 < d) (diffQ p rest).
Proof.
  induction rest as [|x rest IH]; intros p Hinc; cbn [diffQ]; constructor.
  - assert (p < x) by (apply (Hinc 0%nat); reflexivity). lra.
  - apply IH. now apply increasing_tail in Hinc.
Qed.

Lemma losses_zero (price : list Q) :
  increasing price -> Forall (fun x => x == 0) (losses price).
Proof.
  destruct price as [|p rest]; intros Hinc; [constructor|].
  cbn [losses]. constructor; [reflexivity|].
  apply Forall_fmap. eapply Forall_impl; [apply diffQ_pos, Hinc|].
  intros d Hd. cbv beta in Hd. unfold compose, lossQ.
  assert (Hle : Qle_bool 0 d = true) by (apply Qle_bool_iff; lra).
  rewrite Hle. reflexivity.
Qed.

Lemma gains_pos (price : list Q) (j : nat) (g : Q) :
  increasing price -> gains price !! S j = Some g -> 0 < g.
Proof.
  destruct price as [|p rest]; intros Hinc Hg; [discriminate|].
  cbn [gains] in Hg. change (map gainQ (diffQ p rest) !! j = Some g) in Hg.
  rewrite list_lookup_fmap in Hg.
  destruct (diffQ p rest !! j) as [d|] eqn:Hd; [|discriminate].
  injection Hg as <-.
  assert (Hpos : 0 < d).
  { eapply (Forall_lookup_1 (fun d => 0 < d)); [apply diffQ_pos, Hinc|exact Hd]. }
  unfold gainQ. destruct (Qle_bool d 0) eqn:E; [|exact Hpos].
  apply Qle_bool_iff in E. lra.
Qed.

Lemma fold_Qplus_zero (l : list Q) :
  Forall (fun x => x == 0) l -> forall a : Q, fold_left Qplus l a == a.
Proof.
  induction 1 as [|x l Hx _ IH]; intros a; simpl; [reflexivity|].
  rewrite IH, Hx. ring.
Qed.

Lemma fold_Qplus_gt (l : list Q) :
  Forall (fun g => 0 <= g) l ->
  forall (j : nat) (x : Q), l !! j = Some x -> 0 < x ->
  forall a : Q, a < fold_left Qplus l a.
Proof.
  induction 1 as [|y l Hy Hl IH]; intros j x Hj Hx a; [discriminate|].
  simpl. destruct j as [|j].
  - injection Hj as ->.
    apply Qlt_le_trans with (a + x); [lra|now apply fold_Qplus_ge].
  - apply Qle_lt_trans with (a + y); [lra|]. now apply (IH j x).
Qed.

Lemma window_lookup {A : Type} (l : list A) (i k : nat) :
  (13 <= i)%nat -> (k < 14)%nat ->
  drop (S i - 14) (take (S i) l) !! k = l !! (i - 13 + k)%nat.
Proof.
  intros Hi Hk. rewrite lookup_drop, lookup_take_lt by lia.
  f_equal; lia.
Qed.

Lemma rising_rsi (price : list Q) (i : nat) :
  increasing price -> (13 <= i)%nat -> (i < length price)%nat ->
  (exists z : Q, avgQ 14 (losses price) i = Fin z /\ z == 0) /\
  rsi_val (avgQ 14 (gains price) i) (avgQ 14 (losses price) i) = Fin 100.
Proof.
  intros Hinc H13 Hi. unfold avgQ.
  destruct (Nat.leb_spec 14 (S i)) as [_|]; [|lia].
  set (sl := fold_left Qplus (drop (S i - 14) (take (S i) (losses price))) 0).
  set (sg := fold_left Qplus (drop (S i - 14) (take (S i) (gains price))) 0).
  assert (Hsl : sl == 0).
  { apply fold_Qplus_zero. now apply Forall_drop, Forall_take, losses_zero. }
  assert (Hsg : 0 < sg).
  { destruct (lookup_lt_is_Some_2 (gains price) i) as [g Hg];
      [now rewrite length_gains|].
    apply (fold_Qplus_gt _
             (Forall_drop _ _ _ (Forall_take _ (S i) _ (gains_nonneg price)))
             13%nat g).
    - rewrite window_lookup by lia. now replace (i - 13 + 13)%nat with i by lia.
    - destruct i as [|i]; [lia|]. eapply gains_pos; eauto. }
  assert (H14 : 0 < inject_Z (Z.of_nat 14)) by reflexivity.
  assert (Hz : sl / inject_Z (Z.of_nat 14) == 0).
  { rewrite Hsl. reflexivity. }
  split.
  - eexists. split; [reflexivity|exact Hz].
  - apply rsi_val_fin_zero_loss; [|exact Hz].
    apply Qlt_shift_div_l; [exact H14|lra].
Qed.

(** C5.  For every strictly increasing price series, the 14-sample mean of
    the losses is 0 at every index i >= 14, and the RSI column holds
    exactly 100 there. *)
Theorem rsi_of_rising_prices (w : World) (l : loc) (price : list Q) :
  column_of w l "價格" = Some (fin price) ->
  increasing price ->
  exists (l' : loc) (w' : World) (rsi : Series),
    calculate_macd_rsi l w = (Ret l', w') /\
    column_of w' l' "RSI" = Some rsi /\
    forall i : nat, (14 <= i)%nat -> (i < length price)%nat ->
      (exists z : Q, avg_loss_of (fin price) !! i = Some (Fin z) /\ z == 0) /\
      rsi !! i = Some (Fin 100).
Proof.
  intros Hcol Hinc. destruct (price_column_inv _ _ _ Hcol) as [df [Hl Hp]].
  exists (length (heap w)), (set_heap w (heap w ++ [indicator_frame df (fin price)])).
  exists (rsi_column (fin price)).
  split; [now apply calculate_macd_rsi_run|].
  split; [rewrite column_of_top; apply indicator_frame_RSI|].
  intros i H14 Hi.
  destruct (rising_rsi price i Hinc ltac:(lia) Hi) as [[z [Hz Hz0]] Hrsi].
  split.
  - exists z. rewrite avg_loss_fin_lookup by exact Hi. now rewrite Hz.
  - rewrite rsi_column_lookup by exact Hi. now rewrite Hrsi.
Qed.

Lemma rising15_increasing : increasing rising15.
Proof.
  intros i a b Ha Hb. unfold rising15 in Ha, Hb.
  do 15 (destruct i as [|i];
         [cbn in Ha, Hb;
          first [discriminate Hb
                | injection Ha as <-; injection Hb as <-; reflexivity]|]).
  discriminate Ha.
Qed.

Lemma rsi_of_rising_prices_witness :
  (column_of days15 0%nat "價格" = Some (fin rising15) /\ increasing rising15) /\
  exists (l' : loc) (w' : World) (rsi : Series),
    calculate_macd_rsi 0%nat days15 = (Ret l', w') /\
    column_of w' l' "RSI" = Some rsi /\
    forall i : nat, (14 <= i)%nat -> (i < length rising15)%nat ->
      (exists z : Q, avg_loss_of (fin rising15) !! i = Some (Fin z) /\ z == 0) /\
      rsi !! i = Some (Fin 100).
Proof.
  split; [split; [reflexivity|apply rising15_increasing]|].
  apply (rsi_of_rising_prices days15 0%nat rising15);
    [reflexivity|apply rising15_increasing].
Defined.

(** *** The RSI column against the words of the specification *)


(* the same two runs in float64 *)
Lemma rsi64_at_index_13_and_14 :
  Binary64.rsi (Binary64.values (fin rising14)) !! 13%nat = Some 100%float /\
  Binary64.rsi (Binary64.values (fin flat15)) !! 14%nat = Some nan.
Proof. split; vm_compute; reflexivity. Qed.












(** *** The frame of an empty series *)

Lemma assoc_df_set_inv (k k' : string) (v s : Series) (df : DataFrame) :
  assoc k (df_set k' v df) = Some s ->
  (k = k' /\ s = v) \/ (k <> k' /\ assoc k df = Some s).
Proof.
  intros H. destruct (decide (k = k')) as [->|Hne].
  - left. rewrite assoc_df_set_eq in H. injection H as <-. auto.
  - right. rewrite assoc_df_set_ne in H by congruence. auto.
Qed.

Lemma indicator_frame_inv (df : DataFrame) (price : Series) (k : string) (s : Series) :
  assoc k (indicator_frame df price) = Some s ->
  (In k indicator_columns /\
   (s = ewm_mean 12 price \/ s = ewm_mean 26 price \/
    s = macd_column price \/ s = ewm_mean 9 (macd_column price) \/
    s = rsi_column price)) \/
  (~ In k indicator_columns /\ assoc k df = Some s).
Proof.
  intros H. unfold indicator_frame in H. unfold indicator_columns.
  repeat (apply assoc_df_set_inv in H;
          destruct H as [[-> ->] | [? H]];
          [left; split; [simpl; tauto|tauto]|]).
  right. split; [simpl; intuition congruence|exact H].
Qed.

Lemma indicator_frame_other (df : DataFrame) (price : Series) (k : string) :
  ~ In k indicator_columns ->
  assoc k (indicator_frame df price) = assoc k df.
Proof.
  unfold indicator_columns, indicator_frame. intros Hk.
  rewrite !assoc_df_set_ne; [reflexivity|..]; intros <-; apply Hk; simpl; tauto.
Qed.

(** C8.  calculate_macd_rsi applied to an empty series (a frame whose
    columns are all empty) returns: it raises nothing, every column of
    the frame it returns is empty, and so the five indicator columns hold
    no value. *)
Theorem indicators_of_empty_series (w : World) (l : loc) :
  column_of w l "價格" = Some [] ->
  (forall (k : string) (s : Series), column_of w l k = Some s -> s = []) ->
  exists (l' : loc) (w' : World),
    calculate_macd_rsi l w = (Ret l', w') /\
    (forall (k : string) (s : Series), column_of w' l' k = Some s -> s = []) /\
    (forall k : string, In k indicator_columns -> column_of w' l' k = Some []).
Proof.
  intros Hcol Hempty. destruct (price_column_inv _ _ _ Hcol) as [df [Hl Hp]].
  exists (length (heap w)), (set_heap w (heap w ++ [indicator_frame df []])).
  split; [now apply calculate_macd_rsi_run|].
  split.
  - intros k s. rewrite column_of_top. intros Hk.
    destruct (indicator_frame_inv _ _ _ _ Hk)
      as [(_ & [->|[->|[->|[->| ->]]]]) | (_ & Hdf)];
      try reflexivity.
    apply (Hempty k). unfold column_of. now rewrite Hl.
  - intros k Hk. rewrite column_of_top. unfold indicator_columns in Hk.
    simpl in Hk. destruct Hk as [<-|[<-|[<-|[<-|[<-|[]]]]]].
    + apply indicator_frame_EMA12.
    + apply indicator_frame_EMA26.
    + apply indicator_frame_MACD.
    + apply indicator_frame_Signal.
    + apply indicator_frame_RSI.
Qed.

Lemma indicators_of_empty_series_witness :
  (column_of empty_days 0%nat "價格" = Some [] /\
   forall (k : string) (s : Series), column_of empty_days 0%nat k = Some s -> s = []) /\
  exists (l' : loc) (w' : World),
    calculate_macd_rsi 0%nat empty_days = (Ret l', w') /\
    (forall (k : string) (s : Series), column_of w' l' k = Some s -> s = []) /\
    (forall k : string, In k indicator_columns -> column_of w' l' k = Some []).
Proof.
  assert (H : forall (k : string) (s : Series),
             column_of empty_days 0%nat k = Some s -> s = []).
  { intros k s. unfold column_of. simpl.
    destruct (String.eqb k "時間戳"); [now intros [= <-]|].
    destruct (String.eqb k "價格"); [now intros [= <-]|discriminate]. }
  split; [split; [reflexivity|exact H]|].
  apply (indicators_of_empty_series empty_days 0%nat); [reflexivity|exact H].
Defined.

(** *** The input frame is left alone *)

Lemma length_ewm_loop (alpha : Q) (s : Series) :
  forall st : xfloat * Q, length (ewm_loop alpha st s) = length s.
Proof.
  induction s as [|x rest IH]; intros st; simpl; [reflexivity|]. now rewrite IH.
Qed.

Lemma length_ewm_mean (span : Q) (s : Series) :
  length (ewm_mean span s) = length s.
Proof.
  unfold ewm_mean.
  assert (H : length (prep_values s) = length s) by apply length_map.
  destruct (prep_values s) as [|v0 rest]; [exact H|].
  simpl. rewrite length_ewm_loop. exact H.
Qed.

Lemma length_macd_column (s : Series) : length (macd_column s) = length s.
Proof.
  unfold macd_column, sub. rewrite length_zip_with, !length_ewm_mean. lia.
Qed.

Lemma column_of_old (w : World) (df : DataFrame) (l : loc) (k : string) :
  (l < length (heap w))%nat ->
  column_of (set_heap w (heap w ++ [df])) l k = column_of w l k.
Proof.
  intros Hl. unfold column_of. simpl. now rewrite lookup_app_l.
Qed.

(** C9.  calculate_macd_rsi works on a copy: after the call every object
    that existed before it, the input frame among them, is what it was,
    so the caller's timestamp and price columns hold their pre-call
    values.  The frame it returns is a new object; it has the columns of
    the input that are not indicator columns, unchanged, and the five
    indicator columns, and every column of it has the row count of the
    input. *)
Theorem calculate_macd_rsi_works_on_a_copy (w : World) (l : loc)
    (price : Series) (n : nat) :
  column_of w l "價格" = Some price ->
  (forall (k : string) (s : Series), column_of w l k = Some s -> length s = n) ->
  exists (l' : loc) (w' : World),
    calculate_macd_rsi l w = (Ret l', w') /\
    (forall (l0 : loc) (df0 : DataFrame),
        heap w !! l0 = Some df0 -> heap w' !! l0 = Some df0) /\
    column_of w' l "時間戳" = column_of w l "時間戳" /\
    column_of w' l "價格" = Some price /\
    l' <> l /\
    (forall k : string,
        ~ In k indicator_columns -> column_of w' l' k = column_of w l k) /\
    (forall k : string,
        In k indicator_columns -> exists s, column_of w' l' k = Some s) /\
    (forall (k : string) (s : Series),
        column_of w' l' k = Some s -> length s = n).
Proof.
  intros Hcol Hrows. destruct (price_column_inv _ _ _ Hcol) as [df [Hl Hp]].
  assert (Hlt : (l < length (heap w))%nat) by (eapply lookup_lt_Some; eauto).
  assert (Hn : length price = n) by (apply (Hrows "價格"); exact Hcol).
  exists (length (heap w)), (set_heap w (heap w ++ [indicator_frame df price])).
  split; [now apply calculate_macd_rsi_run|].
  split; [intros l0 df0 H0; simpl; now apply lookup_app_l_Some|].
  split; [now apply column_of_old|].
  split; [now rewrite column_of_old|].
  split; [lia|].
  split.
  - intros k Hk. rewrite column_of_top, indicator_frame_other by exact Hk.
    unfold column_of. now rewrite Hl.
  - split.
    + intros k Hk. rewrite column_of_top. simpl in Hk.
      destruct Hk as [<-|[<-|[<-|[<-|[<-|[]]]]]]; eexists.
      * apply indicator_frame_EMA12.
      * apply indicator_frame_EMA26.
      * apply indicator_frame_MACD.
      * apply indicator_frame_Signal.
      * apply indicator_frame_RSI.
    + intros k s. rewrite column_of_top. intros Hk.
      destruct (indicator_frame_inv _ _ _ _ Hk)
        as [(_ & [->|[->|[->|[->| ->]]]]) | (_ & Hdf)].
      * now rewrite length_ewm_mean.
      * now rewrite length_ewm_mean.
      * now rewrite length_macd_column.
      * now rewrite length_ewm_mean, length_macd_column.
      * now rewrite length_rsi_column.
      * apply (Hrows k). unfold column_of. now rewrite Hl.
Qed.

Lemma days3_rows (k : string) (s : Series) :
  column_of days3 0%nat k = Some s -> length s = 3%nat.
Proof.
  unfold column_of. simpl.
  destruct (String.eqb k "時間戳"); [now intros [= <-]|].
  destruct (String.eqb k "價格"); [now intros [= <-]|discriminate].
Qed.

Lemma calculate_macd_rsi_works_on_a_copy_witness :
  (column_of days3 0%nat "價格" = Some (fin [100; 102; 101]) /\
   forall (k : string) (s : Series),
     column_of days3 0%nat k = Some s -> length s = 3%nat) /\
  exists (l' : loc) (w' : World),
    calculate_macd_rsi 0%nat days3 = (Ret l', w') /\
    (forall (l0 : loc) (df0 : DataFrame),
        heap days3 !! l0 = Some df0 -> heap w' !! l0 = Some df0) /\
    column_of w' 0%nat "時間戳" = column_of days3 0%nat "時間戳" /\
    column_of w' 0%nat "價格" = Some (fin [100; 102; 101]) /\
    l' <> 0%nat /\
    (forall k : string,
        ~ In k indicator_columns -> column_of w' l' k = column_of days3 0%nat k) /\
    (forall k : string,
        In k indicator_columns -> exists s, column_of w' l' k = Some s) /\
    (forall (k : string) (s : Series),
        column_of w' l' k = Some s -> length s = 3%nat).
Proof.
  split; [split; [reflexivity|exact days3_rows]|].
  apply (calculate_macd_rsi_works_on_a_copy days3 0%nat (fin [100; 102; 101]) 3);
    [reflexivity|exact days3_rows].
Defined.

(** *** The recorded recommendation *)

Lemma save_history_run (now coin_id coin_name : string) (w : World) (l : loc)
    (df : DataFrame) (price : Series) (latest : xfloat) (ma5 : float) :
  heap w !! l = Some df -> assoc "價格" df = Some price ->
  iloc_last price = Some latest ->
  iloc_last (Binary64.rolling_mean 5 (Binary64.values price)) = Some ma5 ->
  save_history now coin_id coin_name l w
  = (Ret tt,
     mkWorld (heap w) (log w)
       (appended (history w)
          (mkRow coin_name coin_id now latest ma5
             (if PrimFloat.ltb (Binary64.to_f64 latest) ma5
              then "買進" else "賣出")))).
Proof.
  intros Hl Hp Hlast Hma. unfold save_history.
  assert (Hget : forall (B : Type) (c : Series -> M B),
             bind (getitem l "價格") c w = c price w).
  { intros B c. apply bind_ret. now apply (getitem_run w l df). }
  assert (Hlat : forall (B : Type) (c : xfloat -> M B),
             bind (iloc_m1 price) c w = c latest w).
  { intros B c. apply bind_ret. unfold iloc_m1. now rewrite Hlast. }
  assert (Hm5 : forall (B : Type) (c : float -> M B),
             bind (iloc_m1 (Binary64.rolling_mean 5 (Binary64.values price)))
                  c w
             = c ma5 w).
  { intros B c. apply bind_ret. unfold iloc_m1. now rewrite Hma. }
  rewrite Hget, Hlat, Hget, Hm5, Hget, Hlat, Hget, Hm5.
  reflexivity.
Qed.

(* a run of save_history on a frame whose price column is not empty *)
Lemma save_history_appends (now coin_id coin_name : string) (w : World)
    (l : loc) (price : Series) (latest : xfloat) :
  column_of w l "價格" = Some price ->
  last price = Some latest ->
  exists ma5 : float,
    last (Binary64.rolling_mean 5 (Binary64.values price)) = Some ma5 /\
    save_history now coin_id coin_name l w
    = (Ret tt,
       mkWorld (heap w) (log w)
         (appended (history w)
            (mkRow coin_name coin_id now latest ma5
               (if PrimFloat.ltb (Binary64.to_f64 latest) ma5
                then "買進" else "賣出")))).
Proof.
  intros Hcol Hlast. destruct (price_column_inv _ _ _ Hcol) as [df [Hl Hp]].
  assert (Hne : Binary64.values price <> []).
  { intros H. apply (f_equal length) in H. unfold Binary64.values in H.
    rewrite length_map in H. destruct price; [discriminate Hlast|discriminate H]. }
  destruct (last_rolling_mean64 5 _ Hne) as [ma5 Hma].
  exists ma5. split; [exact Hma|].
  now apply (save_history_run now coin_id coin_name w l df price).
Qed.



(* the prices 5, 6, 7, 8, 9, 4: the last one is below 6.8, the mean of the
   last five *)
Lemma a_price_below_the_mean_is_recorded_as_a_purchase :
  save_history "2024-01-01 00:00:00" "bitcoin" "Bitcoin" 0%nat days_dip6
  = (Ret tt,
     mkWorld (heap days_dip6) []
       (Some [(0%nat,
               mkRow "Bitcoin" "bitcoin" "2024-01-01 00:00:00" (Fin 4)
                     (Binary64.of_Q 6.8) "買進")])).
Proof. vm_compute. reflexivity. Qed.

(* the prices 0.1, 0.5, 0.3, 0.3, 0.3: the float64 mean of the five is
   the float64 0.3 itself, a tie with the last price, and the record says
   "賣出" (the exact mean of the five float64 values lies above it) *)
Lemma a_tie_after_rounding_is_recorded_as_a_sale :
  save_history "2024-01-01 00:00:00" "bitcoin" "Bitcoin" 0%nat days_tie5
  = (Ret tt,
     mkWorld (heap days_tie5) []
       (Some [(0%nat,
               mkRow "Bitcoin" "bitcoin" "2024-01-01 00:00:00" (Fin 0.3)
                     (Binary64.of_Q 0.3) "賣出")])).
Proof. vm_compute. reflexivity. Qed.

(** *** The fetcher *)

Lemma datetime_column_inv (frame : DataFrame) (t' : Series) :
  datetime_column frame = Ret t' ->
  exists t, assoc "時間戳" frame = Some t /\ to_datetime_ms t = Ret t'.
Proof.
  unfold datetime_column. destruct (assoc "時間戳" frame) as [t|]; [|discriminate].
  intros H. now exists t.
Qed.

(* a fetch in which no step raises *)
Lemma get_price_history_ok (requests_get : Request -> py Response)
    (DataFrame_other : json -> string -> string -> py DataFrame)
    (coin_id : string) (days : Z) (vs_currency : string) (w : World)
    (res : Response) (data prices : json) (frame : DataFrame) (t' : Series) :
  requests_get (price_request coin_id days vs_currency) = Ret res ->
  res_json res = Ret data ->
  json_getitem data "prices" = Ret prices ->
  pd_DataFrame DataFrame_other prices "時間戳" "價格" = Ret frame ->
  datetime_column frame = Ret t' ->
  get_price_history requests_get DataFrame_other coin_id days vs_currency w
  = (Ret (Some (length (heap w))),
     set_heap w (heap w ++ [df_set "時間戳" t' frame])).
Proof.
  intros Hget Hjson Hprices Hframe Hdt.
  destruct (datetime_column_inv _ _ Hdt) as [t [Ht Hconv]].
  unfold get_price_history, try_except, price_request in *. cbv zeta.
  unfold bind at 1. unfold lift at 1. rewrite Hget.
  unfold bind at 1. unfold lift at 1. rewrite Hjson.
  unfold bind at 1. unfold lift at 1. rewrite Hprices.
  unfold bind at 1. unfold lift at 1. rewrite Hframe.
  unfold bind at 1. unfold alloc at 1.
  change (mkWorld (heap w ++ [frame]) (log w) (history w))
    with (set_heap w (heap w ++ [frame])).
  erewrite bind_ret;
    [|eapply getitem_run; [apply heap_top|exact Ht]].
  unfold bind at 1. unfold lift at 1. rewrite Hconv.
  erewrite bind_ret; [|apply setitem_run; apply heap_top].
  unfold ret, set_heap. simpl. now rewrite heap_set_top.
Qed.

(* a fetch in which a step raises *)
Lemma get_price_history_fault (requests_get : Request -> py Response)
    (DataFrame_other : json -> string -> string -> py DataFrame)
    (coin_id : string) (days : Z) (vs_currency : string) (w : World) (e : exn) :
  fetch_fault requests_get DataFrame_other
    (price_request coin_id days vs_currency) e ->
  exists h : list DataFrame,
    get_price_history requests_get DataFrame_other coin_id days vs_currency w
    = (Ret None,
       mkWorld (heap w ++ h)
         (log w ++ [ErrorLine "get_price_history error: " e]) (history w)).
Proof.
  intros Hfault.
  unfold get_price_history, try_except, price_request in *. cbv zeta.
  destruct Hfault as [e Hget | res e Hget Hjson | res data e Hget Hjson Hprices
                     | res data prices e Hget Hjson Hprices Hframe
                     | res data prices frame e Hget Hjson Hprices Hframe Hdt].
  - exists []. unfold bind at 1. unfold lift at 1. rewrite Hget.
    unfold bind, logging_error, ret. simpl. now rewrite app_nil_r.
  - exists []. unfold bind at 1. unfold lift at 1. rewrite Hget.
    unfold bind at 1. unfold lift at 1. rewrite Hjson.
    unfold bind, logging_error, ret. simpl. now rewrite app_nil_r.
  - exists []. unfold bind at 1. unfold lift at 1. rewrite Hget.
    unfold bind at 1. unfold lift at 1. rewrite Hjson.
    unfold bind at 1. unfold lift at 1. rewrite Hprices.
    unfold bind, logging_error, ret. simpl. now rewrite app_nil_r.
  - exists []. unfold bind at 1. unfold lift at 1. rewrite Hget.
    unfold bind at 1. unfold lift at 1. rewrite Hjson.
    unfold bind at 1. unfold lift at 1. rewrite Hprices.
    unfold bind at 1. unfold lift at 1. rewrite Hframe.
    unfold bind, logging_error, ret. simpl. now rewrite app_nil_r.
  - exists [frame]. unfold bind at 1. unfold lift at 1. rewrite Hget.
    unfold bind at 1. unfold lift at 1. rewrite Hjson.
    unfold bind at 1. unfold lift at 1. rewrite Hprices.
    unfold bind at 1. unfold lift at 1. rewrite Hframe.
    unfold bind at 1. unfold alloc at 1.
    change (mkWorld (heap w ++ [frame]) (log w) (history w))
      with (set_heap w (heap w ++ [frame])).
    unfold datetime_column in Hdt.
    destruct (assoc "時間戳" frame) as [t|] eqn:Ht.
    + erewrite bind_ret;
        [|eapply getitem_run; [apply heap_top|exact Ht]].
      unfold bind at 1. unfold lift at 1. rewrite Hdt.
      unfold bind, logging_error, ret. reflexivity.
    + injection Hdt as <-.
      erewrite bind_raise.
      2:{ unfold getitem, bind, deref, raise. cbn [heap set_heap].
          rewrite heap_top, Ht. reflexivity. }
      unfold bind, logging_error, ret. reflexivity.
Qed.

(* every fetch either meets a fault or runs through *)
Lemma fetch_outcome (requests_get : Request -> py Response)
    (DataFrame_other : json -> string -> string -> py DataFrame)
    (req : Request) :
  (exists e : exn, fetch_fault requests_get DataFrame_other req e) \/
  (exists (res : Response) (data prices : json) (frame : DataFrame) (t' : Series),
      requests_get req = Ret res /\ res_json res = Ret data /\
      json_getitem data "prices" = Ret prices /\
      pd_DataFrame DataFrame_other prices "時間戳" "價格" = Ret frame /\
      datetime_column frame = Ret t').
Proof.
  destruct (requests_get req) as [res|e] eqn:Hget;
    [|left; exists e; now apply fault_request].
  destruct (res_json res) as [data|e] eqn:Hjson;
    [|left; exists e; now apply (fault_body _ _ _ res)].
  destruct (json_getitem data "prices") as [prices|e] eqn:Hprices;
    [|left; exists e; now apply (fault_prices _ _ _ res data)].
  destruct (pd_DataFrame DataFrame_other prices "時間戳" "價格")
    as [frame|e] eqn:Hframe;
    [|left; exists e; now apply (fault_frame _ _ _ res data prices)].
  destruct (datetime_column frame) as [t'|e] eqn:Hdt;
    [|left; exists e; now apply (fault_datetime _ _ _ res data prices frame)].
  right. exists res, data, prices, frame, t'. auto.
Qed.

(* whatever the network and the library do, get_price_history returns *)
Lemma get_price_history_never_raises (requests_get : Request -> py Response)
    (DataFrame_other : json -> string -> string -> py DataFrame)
    (coin_id : string) (days : Z) (vs_currency : string) (w : World) :
  exists (r : option loc) (w' : World),
    get_price_history requests_get DataFrame_other coin_id days vs_currency w
    = (Ret r, w').
Proof.
  destruct (fetch_outcome requests_get DataFrame_other
              (price_request coin_id days vs_currency))
    as [[e Hfault] | (res & data & prices & frame & t' & H1 & H2 & H3 & H4 & H5)].
  - destruct (get_price_history_fault _ _ _ _ _ w e Hfault) as [h Hrun].
    rewrite Hrun. eauto.
  - rewrite (get_price_history_ok _ _ _ _ _ w res data prices frame t'); eauto.
Qed.

(** C6 does not hold as stated.  For the body {"prices": []} no step of
    get_price_history raises: it returns a reference to a new frame that
    has the two columns and no rows, it does not return None, and it logs
    nothing. *)
Lemma empty_prices_are_not_a_failure :
  get_price_history empty_prices_server strict_DataFrame "bitcoin" 7 "usd"
    empty_world
  = (Ret (Some 0%nat), mkWorld [[("時間戳", []); ("價格", [])]] [] None).
Proof. reflexivity. Qed.

(** C6, amended.  When the provider's response has a JSON body whose
    "prices" entry is the empty list, get_price_history returns an explicit
    empty series: a reference to a new frame with the columns 時間戳 and
    價格 and no rows; it does not return None and logs nothing.  The
    query that calls it treats the empty frame as a failed query: it
    computes no indicators and records nothing. *)
Theorem empty_prices_give_an_empty_frame
    (requests_get : Request -> py Response)
    (DataFrame_other : json -> string -> string -> py DataFrame)
    (coin_id : string) (days : Z) (vs_currency : string) (w : World)
    (res : Response) (data : json) :
  requests_get (price_request coin_id days vs_currency) = Ret res ->
  res_json res = Ret data ->
  json_getitem data "prices" = Ret (JArray []) ->
  get_price_history requests_get DataFrame_other coin_id days vs_currency w
  = (Ret (Some (length (heap w))),
     set_heap w (heap w ++ [[("時間戳", []); ("價格", [])]])) /\
  (vs_currency = "usd" ->
   forall now coin_name : string,
     query requests_get DataFrame_other now coin_id coin_name days w
     = (Ret false, set_heap w (heap w ++ [[("時間戳", []); ("價格", [])]]))).
Proof.
  intros Hget Hjson Hprices.
  assert (Hrun :
    get_price_history requests_get DataFrame_other coin_id days vs_currency w
    = (Ret (Some (length (heap w))),
       set_heap w (heap w ++ [[("時間戳", []); ("價格", [])]]))).
  { apply (get_price_history_ok requests_get DataFrame_other coin_id days
             vs_currency w res data (JArray [])
             [("時間戳", []); ("價格", [])] []); auto. }
  split; [exact Hrun|].
  intros -> now coin_name. unfold query.
  rewrite (bind_ret _ _ _ _ _ Hrun).
  erewrite bind_ret.
  2:{ unfold deref. cbn [heap set_heap]. rewrite heap_top. reflexivity. }
  reflexivity.
Qed.

Lemma empty_prices_give_an_empty_frame_witness :
  (empty_prices_server (price_request "bitcoin" 7 "usd")
   = Ret (mkResponse 200 (Ret (JObject [("prices", JArray [])]))) /\
   res_json (mkResponse 200 (Ret (JObject [("prices", JArray [])])))
   = Ret (JObject [("prices", JArray [])]) /\
   json_getitem (JObject [("prices", JArray [])]) "prices" = Ret (JArray [])) /\
  (get_price_history empty_prices_server strict_DataFrame "bitcoin" 7 "usd"
     empty_world
   = (Ret (Some (length (heap empty_world))),
      set_heap empty_world
        (heap empty_world ++ [[("時間戳", []); ("價格", [])]])) /\
   ("usd" = "usd" ->
    forall now coin_name : string,
      query empty_prices_server strict_DataFrame now "bitcoin" coin_name 7
        empty_world
      = (Ret false,
         set_heap empty_world
           (heap empty_world ++ [[("時間戳", []); ("價格", [])]])))).
Proof.
  split; [repeat split|].
  apply (empty_prices_give_an_empty_frame empty_prices_server strict_DataFrame
           "bitcoin" 7 "usd" empty_world
           (mkResponse 200 (Ret (JObject [("prices", JArray [])])))
           (JObject [("prices", JArray [])])); reflexivity.
Defined.

(** C7 does not hold as stated.  The status of a response is never
    inspected: for an HTTP 500 response whose body carries a "prices" list,
    get_price_history returns the frame built from that list, not None. *)
Lemma http_500_with_prices_is_not_a_failure :
  error_status_server (price_request "bitcoin" 7 "usd")
  = Ret (mkResponse 500
           (Ret (JObject [("prices", JArray [JArray [JNumber (Fin 0); JNumber (Fin 1)]])]))) /\
  get_price_history error_status_server strict_DataFrame "bitcoin" 7 "usd"
    empty_world
  = (Ret (Some 0%nat),
     mkWorld [[("時間戳", [Fin 0]); ("價格", [Fin 1])]] [] None).
Proof. split; reflexivity. Qed.

(** C7, amended.  Whenever a step of the fetch raises (the request fails
    or times out, the body is not JSON, the parsed body has no "prices"
    entry, the frame cannot be built from it or its timestamps cannot be
    converted), get_price_history catches the exception: it raises
    nothing, logs one error line (the prefix "get_price_history error: "
    followed by the message of the exception) and returns None, so no
    frame reference reaches the caller; the objects that existed and the
    history are untouched.  The HTTP status plays no part: a non-2xx response is a
    failure only through one of these faults. *)
Theorem fetch_faults_are_caught
    (requests_get : Request -> py Response)
    (DataFrame_other : json -> string -> string -> py DataFrame)
    (coin_id : string) (days : Z) (vs_currency : string) (w : World) (e : exn) :
  fetch_fault requests_get DataFrame_other
    (price_request coin_id days vs_currency) e ->
  exists w' : World,
    get_price_history requests_get DataFrame_other coin_id days vs_currency w
    = (Ret None, w') /\
    log w' = log w ++ [ErrorLine "get_price_history error: " e] /\
    history w' = history w /\
    (forall (l0 : loc) (df0 : DataFrame),
        heap w !! l0 = Some df0 -> heap w' !! l0 = Some df0).
Proof.
  intros Hfault.
  destruct (get_price_history_fault requests_get DataFrame_other coin_id days
              vs_currency w e Hfault) as [h Hrun].
  eexists. split; [exact Hrun|]. cbn [log history heap].
  split; [reflexivity|]. split; [reflexivity|].
  intros l0 df0 H0. now apply lookup_app_l_Some.
Qed.

Lemma fetch_faults_are_caught_witness :
  fetch_fault silent_server strict_DataFrame
    (price_request "bitcoin" 7 "usd") Timeout /\
  exists w' : World,
    get_price_history silent_server strict_DataFrame "bitcoin" 7 "usd" empty_world
    = (Ret None, w') /\
    log w' = log empty_world ++ [ErrorLine "get_price_history error: " Timeout] /\
    history w' = history empty_world /\
    (forall (l0 : loc) (df0 : DataFrame),
        heap empty_world !! l0 = Some df0 -> heap w' !! l0 = Some df0).
Proof.
  split; [apply fault_request; reflexivity|].
  apply (fetch_faults_are_caught silent_server strict_DataFrame "bitcoin" 7
           "usd" empty_world Timeout).
  apply fault_request. reflexivity.
Defined.

(** ** Further properties of the program *)

(** *** The fetchers *)

(** X1.  Whatever the network and the library do, get_price_history
    returns normally and touches neither the history file nor any object
    that existed.  When it returns a reference, the reference is to a new
    object and nothing was logged; when it returns None, exactly one
    error line was logged. *)
Theorem get_price_history_effects
    (requests_get : Request -> py Response)
    (DataFrame_other : json -> string -> string -> py DataFrame)
    (coin_id : string) (days : Z) (vs_currency : string) (w : World) :
  exists (r : option loc) (w' : World),
    get_price_history requests_get DataFrame_other coin_id days vs_currency w
    = (Ret r, w') /\
    history w' = history w /\
    (forall (l0 : loc) (df0 : DataFrame),
        heap w !! l0 = Some df0 -> heap w' !! l0 = Some df0) /\
    match r with
    | Some l =>
        l = length (heap w) /\ log w' = log w /\
        exists df, heap w' !! l = Some df
    | None =>
        exists e : exn,
          log w' = log w ++ [ErrorLine "get_price_history error: " e]
    end.
Proof.
  destruct (fetch_outcome requests_get DataFrame_other
              (price_request coin_id days vs_currency))
    as [[e Hfault] | (res & data & prices & frame & t' & H1 & H2 & H3 & H4 & H5)].
  - destruct (get_price_history_fault _ _ _ _ _ w e Hfault) as [h Hrun].
    eexists. eexists. split; [exact Hrun|]. cbn [history heap log].
    split; [reflexivity|].
    split; [intros l0 df0 H0; now apply lookup_app_l_Some|].
    now exists e.
  - eexists. eexists.
    split; [apply (get_price_history_ok _ _ _ _ _ w res data prices frame t'); auto|].
    cbn [history heap log set_heap].
    split; [reflexivity|].
    split; [intros l0 df0 H0; now apply lookup_app_l_Some|].
    split; [reflexivity|]. split; [reflexivity|].
    eexists. apply heap_top.
Qed.

Lemma price_rows_numeric (tps : list (xfloat * xfloat)) :
  price_rows (map row_json tps) = Some tps.
Proof.
  induction tps as [|[t p] rest IH]; [reflexivity|].
  cbn [map price_rows]. rewrite IH. reflexivity.
Qed.

Lemma epoch_ms_datetime_ok (x : xfloat) :
  epoch_ms x = true -> datetime_ok x = true.
Proof.
  destruct x as [| | |[n d]]; try discriminate. unfold epoch_ms, datetime_ok.
  cbn [Qden Qnum]. intros H. apply andb_prop in H. destruct H as [Hd Hn].
  apply Pos.eqb_eq in Hd. subst d. apply Z.leb_le in Hn.
  apply andb_true_intro. split; apply Qle_bool_iff;
    unfold Qle, datetime_ns_max; cbn; lia.
Qed.

Lemma to_datetime_ms_epoch (s : Series) :
  forallb epoch_ms s = true -> to_datetime_ms s = Ret s.
Proof.
  induction s as [|x rest IH]; [reflexivity|].
  cbn [forallb to_datetime_ms]. intros H. apply andb_prop in H.
  destruct H as [Hx Hrest].
  now rewrite (epoch_ms_datetime_ok x Hx), (IH Hrest).
Qed.

(* the fetch of a list of rows of numbers *)
Lemma numeric_rows_frame
    (requests_get : Request -> py Response)
    (DataFrame_other : json -> string -> string -> py DataFrame)
    (coin_id : string) (days : Z) (vs_currency : string) (w : World)
    (res : Response) (data : json) (tps : list (xfloat * xfloat)) :
  requests_get (price_request coin_id days vs_currency) = Ret res ->
  res_json res = Ret data ->
  json_getitem data "prices" = Ret (JArray (map row_json tps)) ->
  forallb epoch_ms (map fst tps) = true ->
  get_price_history requests_get DataFrame_other coin_id days vs_currency w
  = (Ret (Some (length (heap w))), set_heap w (heap w ++ [rows_frame tps])).
Proof.
  intros Hget Hjson Hprices Hms.
  assert (Hframe :
    pd_DataFrame DataFrame_other (JArray (map row_json tps)) "時間戳" "價格"
    = Ret (rows_frame tps)).
  { unfold pd_DataFrame. now rewrite price_rows_numeric. }
  apply (get_price_history_ok requests_get DataFrame_other coin_id days
           vs_currency w res data (JArray (map row_json tps))
           (rows_frame tps) (map fst tps));
    auto.
  unfold datetime_column, rows_frame.
  change (assoc "時間戳" [("時間戳", map fst tps); ("價格", map snd tps)])
    with (Some (map fst tps)).
  now apply to_datetime_ms_epoch.
Qed.

(* the body {"prices": [[1e16, 1]]}: the timestamp is a number, but no
   datetime64[ns] holds it; pd.to_datetime raises and the fetch gives
   None *)
Lemma out_of_range_timestamp_is_a_fault :
  get_price_history far_future_server strict_DataFrame "bitcoin" 7 "usd"
    empty_world
  = (Ret None,
     mkWorld [[("時間戳", [Fin 10000000000000000]); ("價格", [Fin 1])]]
       [ErrorLine "get_price_history error: " ValueError] None).
Proof. reflexivity. Qed.

(** X2.  When the body of the response is JSON and its "prices" entry is
    a list of rows [t, p] of numbers whose timestamps t are whole numbers
    of milliseconds within 9 * 10^12 of the epoch, get_price_history
    returns a new frame whose timestamp and price columns hold the t and
    the p of the rows, one row each, in the order received; it logs
    nothing.  The prices may be any numbers, NaN and the infinities
    included, and the status of the response plays no part. *)
Theorem numeric_rows_give_the_price_frame
    (requests_get : Request -> py Response)
    (DataFrame_other : json -> string -> string -> py DataFrame)
    (coin_id : string) (days : Z) (vs_currency : string) (w : World)
    (res : Response) (data : json) (tps : list (xfloat * xfloat)) :
  requests_get (price_request coin_id days vs_currency) = Ret res ->
  res_json res = Ret data ->
  json_getitem data "prices" = Ret (JArray (map row_json tps)) ->
  forallb epoch_ms (map fst tps) = true ->
  get_price_history requests_get DataFrame_other coin_id days vs_currency w
  = (Ret (Some (length (heap w))),
     set_heap w (heap w ++ [[("時間戳", map fst tps); ("價格", map snd tps)]])).
Proof. apply numeric_rows_frame. Qed.

Lemma numeric_rows_give_the_price_frame_witness :
  (three_rows_server (price_request "bitcoin" 7 "usd")
   = Ret (mkResponse 200
            (Ret (JObject [("prices", JArray (map row_json three_rows))]))) /\
   res_json (mkResponse 200
               (Ret (JObject [("prices", JArray (map row_json three_rows))])))
   = Ret (JObject [("prices", JArray (map row_json three_rows))]) /\
   json_getitem (JObject [("prices", JArray (map row_json three_rows))]) "prices"
   = Ret (JArray (map row_json three_rows)) /\
   forallb epoch_ms (map fst three_rows) = true) /\
  get_price_history three_rows_server strict_DataFrame "bitcoin" 7 "usd"
    empty_world
  = (Ret (Some (length (heap empty_world))),
     set_heap empty_world
       (heap empty_world
        ++ [[("時間戳", map fst three_rows); ("價格", map snd three_rows)]])).
Proof.
  split; [repeat split|].
  apply (numeric_rows_give_the_price_frame three_rows_server strict_DataFrame
           "bitcoin" 7 "usd" empty_world
           (mkResponse 200
              (Ret (JObject [("prices", JArray (map row_json three_rows))])))
           (JObject [("prices", JArray (map row_json three_rows))])
           three_rows); reflexivity.
Defined.

(** X3.  A run of the body of get_top_coins returns normally and touches
    neither the heap nor the history file.  When the request returns a
    response whose body is JSON, the parsed body is the result, whatever it
    is and whatever the status, and nothing is logged; when the request
    raises or the body is not JSON, the result is the empty list and
    exactly one error line is logged. *)
Theorem get_top_coins_outcome
    (requests_get : Request -> py Response) (limit : Z) (w : World) :
  exists (v : json) (w' : World),
    get_top_coins requests_get limit w = (Ret v, w') /\
    heap w' = heap w /\ history w' = history w /\
    ((exists res : Response,
         requests_get (coins_request limit) = Ret res /\
         res_json res = Ret v /\ log w' = log w) \/
     (v = JArray [] /\
      exists e : exn,
        log w' = log w ++ [ErrorLine "get_top_coins error: " e] /\
        (requests_get (coins_request limit) = Raise e \/
         exists res : Response,
           requests_get (coins_request limit) = Ret res /\
           res_json res = Raise e))).
Proof.
  unfold get_top_coins, try_except, coins_request. cbv zeta.
  unfold bind at 1. unfold lift at 1.
  destruct (requests_get _) as [res|e] eqn:Hget.
  - unfold lift at 1. destruct (res_json res) as [v|e] eqn:Hjson.
    + exists v, w. split; [reflexivity|]. split; [reflexivity|].
      split; [reflexivity|]. left. exists res. auto.
    + eexists. eexists. split; [reflexivity|]. cbn [heap history log].
      split; [reflexivity|]. split; [reflexivity|].
      right. split; [reflexivity|]. exists e. split; [reflexivity|].
      right. exists res. auto.
  - eexists. eexists. split; [reflexivity|]. cbn [heap history log].
    split; [reflexivity|]. split; [reflexivity|].
    right. split; [reflexivity|]. exists e. split; [reflexivity|]. now left.
Qed.

(** *** More on calculate_macd_rsi *)

Lemma calculate_macd_rsi_raises (w : World) (l : loc) (df : DataFrame) :
  heap w !! l = Some df ->
  assoc "價格" df = None ->
  calculate_macd_rsi l w
  = (Raise (KeyError "價格"), set_heap w (heap w ++ [df])).
Proof.
  intros Hl Hp. unfold calculate_macd_rsi.
  rewrite (bind_ret _ _ _ _ _ (copy_run w l df Hl)).
  apply bind_raise. unfold getitem, bind, deref, raise. cbn [heap set_heap].
  now rewrite heap_top, Hp.
Qed.

(** X4.  On a frame that has no price column calculate_macd_rsi raises
    KeyError for that column; by then it has made its copy, and that is
    all it did: the input frame and every other object are as before, and
    no indicator column was added anywhere. *)
Theorem calculate_macd_rsi_without_price_column (w : World) (l : loc)
    (df : DataFrame) :
  heap w !! l = Some df ->
  assoc "價格" df = None ->
  calculate_macd_rsi l w
  = (Raise (KeyError "價格"), set_heap w (heap w ++ [df])).
Proof. apply calculate_macd_rsi_raises. Qed.

Lemma calculate_macd_rsi_without_price_column_witness :
  (heap no_price_days !! 0%nat = Some [("時間戳", fin [0; 1])] /\
   assoc "價格" [("時間戳", fin [0; 1])] = None) /\
  calculate_macd_rsi 0%nat no_price_days
  = (Raise (KeyError "價格"),
     set_heap no_price_days (heap no_price_days ++ [[("時間戳", fin [0; 1])]])).
Proof.
  split; [split; reflexivity|].
  apply (calculate_macd_rsi_without_price_column no_price_days 0%nat
           [("時間戳", fin [0; 1])]); reflexivity.
Defined.

Lemma df_set_same (k : string) (v : Series) (df : DataFrame) :
  assoc k df = Some v -> df_set k v df = df.
Proof.
  induction df as [|[k' s] rest IH]; simpl; [discriminate|].
  destruct (String.eqb k k') eqn:E.
  - intros [= ->]. reflexivity.
  - intros H. now rewrite IH.
Qed.

Lemma indicator_frame_again (df : DataFrame) (price : Series) :
  indicator_frame (indicator_frame df price) price = indicator_frame df price.
Proof.
  set (F := indicator_frame df price).
  unfold indicator_frame at 1.
  rewrite (df_set_same "EMA12") by apply indicator_frame_EMA12.
  rewrite (df_set_same "EMA26") by apply indicator_frame_EMA26.
  rewrite (df_set_same "MACD") by apply indicator_frame_MACD.
  rewrite (df_set_same "Signal") by apply indicator_frame_Signal.
  apply df_set_same, indicator_frame_RSI.
Qed.

(** X5.  Applying calculate_macd_rsi to the frame it returned gives a new
    object that is equal to that frame, column for column and in the same
    order: the indicator columns are replaced where they stand by the same
    values, since they depend on the price column only. *)
Theorem calculate_macd_rsi_again (w : World) (l : loc) (price : Series) :
  column_of w l "價格" = Some price ->
  exists (l1 : loc) (w1 : World) (l2 : loc) (w2 : World) (df1 : DataFrame),
    calculate_macd_rsi l w = (Ret l1, w1) /\
    calculate_macd_rsi l1 w1 = (Ret l2, w2) /\
    l2 <> l1 /\
    heap w1 !! l1 = Some df1 /\
    heap w2 !! l1 = Some df1 /\
    heap w2 !! l2 = Some df1.
Proof.
  intros Hcol. destruct (price_column_inv _ _ _ Hcol) as [df [Hl Hp]].
  set (F := indicator_frame df price).
  set (w1 := set_heap w (heap w ++ [F])).
  assert (H1 : heap w1 !! length (heap w) = Some F) by apply heap_top.
  assert (HpF : assoc "價格" F = Some price).
  { unfold F. rewrite indicator_frame_other; [exact Hp|].
    unfold indicator_columns. simpl. intuition discriminate. }
  exists (length (heap w)), w1, (length (heap w1)).
  exists (set_heap w1 (heap w1 ++ [indicator_frame F price])), F.
  split; [now apply calculate_macd_rsi_run|].
  split; [now apply calculate_macd_rsi_run|].
  split; [unfold w1; cbn [heap set_heap]; rewrite length_app; simpl; lia|].
  split; [exact H1|].
  split; [cbn [heap set_heap]; now apply lookup_app_l_Some|].
  unfold w1, F. cbn [heap set_heap]. rewrite indicator_frame_again.
  apply heap_top.
Qed.

Lemma calculate_macd_rsi_again_witness :
  column_of days3 0%nat "價格" = Some (fin [100; 102; 101]) /\
  exists (l1 : loc) (w1 : World) (l2 : loc) (w2 : World) (df1 : DataFrame),
    calculate_macd_rsi 0%nat days3 = (Ret l1, w1) /\
    calculate_macd_rsi l1 w1 = (Ret l2, w2) /\
    l2 <> l1 /\
    heap w1 !! l1 = Some df1 /\
    heap w2 !! l1 = Some df1 /\
    heap w2 !! l2 = Some df1.
Proof.
  split; [reflexivity|].
  apply (calculate_macd_rsi_again days3 0%nat (fin [100; 102; 101])).
  reflexivity.
Defined.

(** *** Averages stay within the prices *)

Lemma ema_next_within (alpha lo hi e p : Q) :
  0 <= alpha <= 1 -> lo <= e <= hi -> lo <= p <= hi ->
  lo <= ema_next alpha e p <= hi.
Proof.
  intros [Ha0 Ha1] [He0 He1] [Hp0 Hp1]. rewrite ema_next_rec.
  assert (H1 : 0 <= alpha * (p - lo)) by (apply Qmult_le_0_compat; lra).
  assert (H2 : 0 <= (1 - alpha) * (e - lo)) by (apply Qmult_le_0_compat; lra).
  assert (H3 : 0 <= alpha * (hi - p)) by (apply Qmult_le_0_compat; lra).
  assert (H4 : 0 <= (1 - alpha) * (hi - e)) by (apply Qmult_le_0_compat; lra).
  split.
  - assert (E : alpha * p + (1 - alpha) * e
                 == lo + (alpha * (p - lo) + (1 - alpha) * (e - lo))) by ring.
    rewrite E. lra.
  - assert (E : alpha * p + (1 - alpha) * e
                 == hi - (alpha * (hi - p) + (1 - alpha) * (hi - e))) by ring.
    rewrite E. lra.
Qed.

Lemma ema_tail_within (alpha lo hi : Q) (l : list Q) :
  0 <= alpha <= 1 -> within lo hi l ->
  forall e : Q, lo <= e <= hi -> within lo hi (ema_tail alpha e l).
Proof.
  intros Ha Hl. induction Hl as [|p rest Hp _ IH]; intros e He; [constructor|].
  cbn [ema_tail].
  assert (Hn : lo <= ema_next alpha e p <= hi) by now apply ema_next_within.
  constructor; [exact Hn|]. now apply IH.
Qed.

Lemma ema_within (alpha lo hi : Q) (l : list Q) :
  0 <= alpha <= 1 -> within lo hi l -> within lo hi (ema alpha l).
Proof.
  intros Ha Hl. destruct Hl as [|p rest Hp Hrest]; [constructor|].
  cbn [ema]. constructor; [exact Hp|]. now apply ema_tail_within.
Qed.

Lemma alpha_of_span_unit (span : Q) : 1 <= span -> 0 <= alpha_of_span span <= 1.
Proof.
  intros Hs. unfold alpha_of_span.
  assert (Hd : 0 < 1 + (span - 1) / 2).
  { assert (0 <= (span - 1) / 2) by (apply Qdiv_nonneg; lra). lra. }
  split.
  - apply Qdiv_nonneg; [lra|exact Hd].
  - apply Qle_shift_div_r; [exact Hd|].
    assert (0 <= (span - 1) / 2) by (apply Qdiv_nonneg; lra). lra.
Qed.

Lemma difference_within (lo hi : Q) (a : list Q) :
  within lo hi a -> forall b : list Q, within lo hi b ->
  within (- (hi - lo)) (hi - lo) (zip_with Qminus a b).
Proof.
  induction 1 as [|x a Hx _ IH]; intros b Hb; [constructor|].
  destruct Hb as [|y b Hy Hb]; [constructor|].
  cbn [zip_with]. constructor; [|now apply IH].
  unfold Qminus. lra.
Qed.

(** X6.  The moving averages never leave the range of the prices: when
    every price lies between lo and hi, so does every entry of EMA12 and
    of EMA26, and every entry of MACD and of Signal lies between
    -(hi - lo) and hi - lo. *)
Theorem averages_stay_in_the_price_range (w : World) (l : loc)
    (price : list Q) (lo hi : Q) :
  column_of w l "價格" = Some (fin price) ->
  within lo hi price ->
  exists (l' : loc) (w' : World) (ema12 ema26 macd signal : list Q),
    calculate_macd_rsi l w = (Ret l', w') /\
    column_of w' l' "EMA12" = Some (fin ema12) /\
    column_of w' l' "EMA26" = Some (fin ema26) /\
    column_of w' l' "MACD" = Some (fin macd) /\
    column_of w' l' "Signal" = Some (fin signal) /\
    within lo hi ema12 /\ within lo hi ema26 /\
    within (- (hi - lo)) (hi - lo) macd /\
    within (- (hi - lo)) (hi - lo) signal.
Proof.
  intros Hcol Hin. destruct (price_column_inv _ _ _ Hcol) as [df [Hl Hp]].
  exists (length (heap w)), (set_heap w (heap w ++ [indicator_frame df (fin price)])).
  set (e12 := ema (alpha_of_span 12) price).
  set (e26 := ema (alpha_of_span 26) price).
  exists e12, e26, (zip_with Qminus e12 e26).
  exists (ema (alpha_of_span 9) (zip_with Qminus e12 e26)).
  split; [now apply calculate_macd_rsi_run|].
  rewrite !column_of_top, indicator_frame_EMA12, indicator_frame_EMA26,
    indicator_frame_MACD, indicator_frame_Signal.
  unfold macd_column. rewrite !ewm_mean_fin. fold e12 e26.
  rewrite sub_fin, ewm_mean_fin.
  do 4 (split; [reflexivity|]).
  assert (H12 : within lo hi e12)
    by (apply ema_within; [apply alpha_of_span_unit; lra|exact Hin]).
  assert (H26 : within lo hi e26)
    by (apply ema_within; [apply alpha_of_span_unit; lra|exact Hin]).
  assert (Hm : within (- (hi - lo)) (hi - lo) (zip_with Qminus e12 e26))
    by now apply difference_within.
  split; [exact H12|]. split; [exact H26|]. split; [exact Hm|].
  apply ema_within; [apply alpha_of_span_unit; lra|exact Hm].
Qed.

Lemma days3_within : within 100 102 [100; 102; 101].
Proof.
  unfold within.
  repeat (apply List.Forall_cons; [split; discriminate|]). apply List.Forall_nil.
Qed.

Lemma averages_stay_in_the_price_range_witness :
  (column_of days3 0%nat "價格" = Some (fin [100; 102; 101]) /\
   within 100 102 [100; 102; 101]) /\
  exists (l' : loc) (w' : World) (ema12 ema26 macd signal : list Q),
    calculate_macd_rsi 0%nat days3 = (Ret l', w') /\
    column_of w' l' "EMA12" = Some (fin ema12) /\
    column_of w' l' "EMA26" = Some (fin ema26) /\
    column_of w' l' "MACD" = Some (fin macd) /\
    column_of w' l' "Signal" = Some (fin signal) /\
    within 100 102 ema12 /\ within 100 102 ema26 /\
    within (- (102 - 100)) (102 - 100) macd /\
    within (- (102 - 100)) (102 - 100) signal.
Proof.
  split; [split; [reflexivity|exact days3_within]|].
  apply (averages_stay_in_the_price_range days3 0%nat [100; 102; 101] 100 102);
    [reflexivity|exact days3_within].
Defined.

(** *** Flat and falling prices *)

Lemma diffQ_flat (p : Q) (rest : list Q) :
  forall q : Q, q == p -> Forall (fun x => x == p) rest ->
  Forall (fun d => d == 0) (diffQ q rest).
Proof.
  induction rest as [|x rest IH]; intros q Hq Hrest; cbn [diffQ]; [constructor|].
  apply Forall_cons in Hrest. destruct Hrest as [Hx Hrest].
  constructor; [rewrite Hx, Hq; ring|]. now apply IH.
Qed.

Lemma gainQ_zero (d : Q) : d <= 0 -> gainQ d = 0.
Proof.
  intros Hd. unfold gainQ.
  assert (H : Qle_bool d 0 = true) by now apply Qle_bool_iff.
  now rewrite H.
Qed.

Lemma lossQ_zero (d : Q) : 0 <= d -> lossQ d == 0.
Proof.
  intros Hd. unfold lossQ.
  assert (H : Qle_bool 0 d = true) by now apply Qle_bool_iff.
  rewrite H. reflexivity.
Qed.

Lemma gains_flat (p : Q) (price : list Q) :
  Forall (fun x => x == p) price -> Forall (fun g => g == 0) (gains price).
Proof.
  intros Hflat. destruct price as [|q rest]; [constructor|].
  apply Forall_cons in Hflat. destruct Hflat as [Hq Hrest].
  cbn [gains]. constructor; [reflexivity|].
  apply Forall_fmap. eapply Forall_impl; [apply (diffQ_flat p); eassumption|].
  intros d Hd. cbv beta in Hd. unfold compose.
  rewrite gainQ_zero by lra. reflexivity.
Qed.

Lemma losses_flat (p : Q) (price : list Q) :
  Forall (fun x => x == p) price -> Forall (fun g => g == 0) (losses price).
Proof.
  intros Hflat. destruct price as [|q rest]; [constructor|].
  apply Forall_cons in Hflat. destruct Hflat as [Hq Hrest].
  cbn [losses]. constructor; [reflexivity|].
  apply Forall_fmap. eapply Forall_impl; [apply (diffQ_flat p); eassumption|].
  intros d Hd. cbv beta in Hd. unfold compose. apply lossQ_zero. lra.
Qed.

(* a rolling mean of zeros is undefined or zero *)
Lemma avgQ_zero (w i : nat) (l : list Q) :
  Forall (fun x => x == 0) l ->
  avgQ w l i = NaN \/ exists z : Q, avgQ w l i = Fin z /\ z == 0.
Proof.
  intros Hl. unfold avgQ. destruct (w <=? S i)%nat; [|now left].
  right. eexists. split; [reflexivity|].
  rewrite fold_Qplus_zero by now apply Forall_drop, Forall_take.
  unfold Qdiv. ring.
Qed.

Lemma within_point (p : Q) (l : list Q) :
  within p p l <-> Forall (fun x => x == p) l.
Proof.
  unfold within. split; intros H; eapply Forall_impl; try exact H;
    intros x Hx; cbv beta in Hx.
  - lra.
  - rewrite Hx. split; apply Qle_refl.
Qed.

Lemma within_zero (p : Q) (l : list Q) :
  within (- (p - p)) (p - p) l -> Forall (fun x => x == 0) l.
Proof.
  unfold within. intros H. eapply Forall_impl; [exact H|].
  intros x Hx. cbv beta in Hx. lra.
Qed.

(** X7.  For a series whose prices are all equal to p, both moving
    averages equal p at every index, MACD and Signal are 0 at every index,
    and the RSI is NaN at every index, also from index 13 on (no gain and
    no loss: 0/0). *)
Theorem indicators_of_flat_prices (w : World) (l : loc) (price : list Q) (p : Q) :
  column_of w l "價格" = Some (fin price) ->
  Forall (fun x => x == p) price ->
  exists (l' : loc) (w' : World) (ema12 ema26 macd signal : list Q) (rsi : Series),
    calculate_macd_rsi l w = (Ret l', w') /\
    column_of w' l' "EMA12" = Some (fin ema12) /\
    column_of w' l' "EMA26" = Some (fin ema26) /\
    column_of w' l' "MACD" = Some (fin macd) /\
    column_of w' l' "Signal" = Some (fin signal) /\
    column_of w' l' "RSI" = Some rsi /\
    Forall (fun x => x == p) ema12 /\ Forall (fun x => x == p) ema26 /\
    Forall (fun x => x == 0) macd /\ Forall (fun x => x == 0) signal /\
    Forall (fun x => x = NaN) rsi /\
    length rsi = length price.
Proof.
  intros Hcol Hflat. destruct (price_column_inv _ _ _ Hcol) as [df [Hl Hp]].
  apply within_point in Hflat as Hin.
  exists (length (heap w)), (set_heap w (heap w ++ [indicator_frame df (fin price)])).
  set (e12 := ema (alpha_of_span 12) price).
  set (e26 := ema (alpha_of_span 26) price).
  exists e12, e26, (zip_with Qminus e12 e26).
  exists (ema (alpha_of_span 9) (zip_with Qminus e12 e26)).
  exists (rsi_column (fin price)).
  split; [now apply calculate_macd_rsi_run|].
  rewrite !column_of_top, indicator_frame_EMA12, indicator_frame_EMA26,
    indicator_frame_MACD, indicator_frame_Signal, indicator_frame_RSI.
  unfold macd_column. rewrite !ewm_mean_fin. fold e12 e26.
  rewrite sub_fin, ewm_mean_fin.
  do 5 (split; [reflexivity|]).
  assert (H12 : within p p e12)
    by (apply ema_within; [apply alpha_of_span_unit; lra|exact Hin]).
  assert (H26 : within p p e26)
    by (apply ema_within; [apply alpha_of_span_unit; lra|exact Hin]).
  assert (Hm : within (- (p - p)) (p - p) (zip_with Qminus e12 e26))
    by now apply difference_within.
  split; [now apply within_point|]. split; [now apply within_point|].
  split; [now apply within_zero in Hm|].
  split.
  { apply (within_zero p).
    apply ema_within; [apply alpha_of_span_unit; lra|exact Hm]. }
  split; [|now rewrite length_rsi_column, length_fin].
  apply Forall_lookup. intros i x Hx.
  assert (Hi : (i < length price)%nat).
  { apply lookup_lt_Some in Hx.
    now rewrite length_rsi_column, length_fin in Hx. }
  rewrite rsi_column_lookup in Hx by exact Hi. injection Hx as <-.
  destruct (avgQ_zero 14 i (gains price) (gains_flat p price Hflat))
    as [-> | [g [-> Hg]]]; [apply rsi_val_nan_l|].
  destruct (avgQ_zero 14 i (losses price) (losses_flat p price Hflat))
    as [-> | [a [-> Ha]]]; [apply rsi_val_nan_r|].
  now apply rsi_val_fin_flat.
Qed.

Lemma flat15_all_one : Forall (fun x => x == 1) flat15.
Proof.
  unfold flat15.
  repeat (apply List.Forall_cons; [reflexivity|]). apply List.Forall_nil.
Qed.

Lemma indicators_of_flat_prices_witness :
  (column_of flat_days15 0%nat "價格" = Some (fin flat15) /\
   Forall (fun x => x == 1) flat15) /\
  exists (l' : loc) (w' : World) (ema12 ema26 macd signal : list Q) (rsi : Series),
    calculate_macd_rsi 0%nat flat_days15 = (Ret l', w') /\
    column_of w' l' "EMA12" = Some (fin ema12) /\
    column_of w' l' "EMA26" = Some (fin ema26) /\
    column_of w' l' "MACD" = Some (fin macd) /\
    column_of w' l' "Signal" = Some (fin signal) /\
    column_of w' l' "RSI" = Some rsi /\
    Forall (fun x => x == 1) ema12 /\ Forall (fun x => x == 1) ema26 /\
    Forall (fun x => x == 0) macd /\ Forall (fun x => x == 0) signal /\
    Forall (fun x => x = NaN) rsi /\
    length rsi = length flat15.
Proof.
  split; [split; [reflexivity|exact flat15_all_one]|].
  apply (indicators_of_flat_prices flat_days15 0%nat flat15 1);
    [reflexivity|exact flat15_all_one].
Defined.

Lemma decreasing_tail (p : Q) (rest : list Q) :
  decreasing (p :: rest) -> decreasing rest.
Proof. intros H i a b Ha Hb. exact (H (S i) a b Ha Hb). Qed.

Lemma diffQ_neg (rest : list Q) :
  forall p : Q, decreasing (p :: rest) -> Forall (fun d => d < 0) (diffQ p rest).
Proof.
  induction rest as [|x rest IH]; intros p Hdec; cbn [diffQ]; constructor.
  - assert (x < p) by (apply (Hdec 0%nat); reflexivity). lra.
  - apply IH. now apply decreasing_tail in Hdec.
Qed.

Lemma gains_zero (price : list Q) :
  decreasing price -> Forall (fun x => x == 0) (gains price).
Proof.
  destruct price as [|p rest]; intros Hdec; [constructor|].
  cbn [gains]. constructor; [reflexivity|].
  apply Forall_fmap. eapply Forall_impl; [apply diffQ_neg, Hdec|].
  intros d Hd. cbv beta in Hd. unfold compose.
  rewrite gainQ_zero by lra. reflexivity.
Qed.

Lemma losses_pos (price : list Q) (j : nat) (g : Q) :
  decreasing price -> losses price !! S j = Some g -> 0 < g.
Proof.
  destruct price as [|p rest]; intros Hdec Hg; [discriminate|].
  cbn [losses] in Hg. change (map lossQ (diffQ p rest) !! j = Some g) in Hg.
  rewrite list_lookup_fmap in Hg.
  destruct (diffQ p rest !! j) as [d|] eqn:Hd; [|discriminate].
  injection Hg as <-.
  assert (Hneg : d < 0).
  { eapply (Forall_lookup_1 (fun d => d < 0)); [apply diffQ_neg, Hdec|exact Hd]. }
  unfold lossQ. destruct (Qle_bool 0 d) eqn:E.
  - apply Qle_bool_iff in E. lra.
  - lra.
Qed.

Lemma falling_rsi (price : list Q) (i : nat) :
  decreasing price -> (13 <= i)%nat -> (i < length price)%nat ->
  exists x : Q,
    rsi_val (avgQ 14 (gains price) i) (avgQ 14 (losses price) i) = Fin x /\
    x == 0.
Proof.
  intros Hdec H13 Hi. unfold avgQ.
  destruct (Nat.leb_spec 14 (S i)) as [_|]; [|lia].
  set (sl := fold_left Qplus (drop (S i - 14) (take (S i) (losses price))) 0).
  set (sg := fold_left Qplus (drop (S i - 14) (take (S i) (gains price))) 0).
  assert (Hsg : sg == 0).
  { apply fold_Qplus_zero. now apply Forall_drop, Forall_take, gains_zero. }
  assert (Hsl : 0 < sl).
  { destruct (lookup_lt_is_Some_2 (losses price) i) as [g Hg];
      [now rewrite length_losses|].
    apply (fold_Qplus_gt _
             (Forall_drop _ _ _ (Forall_take _ (S i) _ (losses_nonneg price)))
             13%nat g).
    - rewrite window_lookup by lia. now replace (i - 13 + 13)%nat with i by lia.
    - destruct i as [|i]; [lia|]. eapply losses_pos; eauto. }
  assert (H14 : 0 < inject_Z (Z.of_nat 14)) by reflexivity.
  set (g := sg / inject_Z (Z.of_nat 14)).
  set (a := sl / inject_Z (Z.of_nat 14)).
  assert (Hg : g == 0) by (unfold g; rewrite Hsg; reflexivity).
  assert (Ha : 0 < a) by (apply Qlt_shift_div_l; [exact H14|lra]).
  destruct (rsi_val_fin_pos g a) as [-> _]; [lra|exact Ha|].
  eexists. split; [reflexivity|].
  assert (Hr : g / a == 0) by (rewrite Hg; unfold Qdiv; ring).
  rewrite Hr. reflexivity.
Qed.

(** X8.  For every strictly decreasing price series the RSI column holds
    0 at every index i >= 13: there is no gain in any window, so
    rs = 0 and 100 - 100/(1 + 0) = 0. *)
Theorem rsi_of_falling_prices (w : World) (l : loc) (price : list Q) :
  column_of w l "價格" = Some (fin price) ->
  decreasing price ->
  exists (l' : loc) (w' : World) (rsi : Series),
    calculate_macd_rsi l w = (Ret l', w') /\
    column_of w' l' "RSI" = Some rsi /\
    forall i : nat, (13 <= i)%nat -> (i < length price)%nat ->
      exists x : Q, rsi !! i = Some (Fin x) /\ x == 0.
Proof.
  intros Hcol Hdec. destruct (price_column_inv _ _ _ Hcol) as [df [Hl Hp]].
  exists (length (heap w)), (set_heap w (heap w ++ [indicator_frame df (fin price)])).
  exists (rsi_column (fin price)).
  split; [now apply calculate_macd_rsi_run|].
  split; [rewrite column_of_top; apply indicator_frame_RSI|].
  intros i H13 Hi.
  destruct (falling_rsi price i Hdec H13 Hi) as [x [Hx Hx0]].
  exists x. rewrite rsi_column_lookup by exact Hi. now rewrite Hx.
Qed.

Lemma falling15_decreasing : decreasing falling15.
Proof.
  intros i a b Ha Hb. unfold falling15 in Ha, Hb.
  do 15 (destruct i as [|i];
         [cbn in Ha, Hb;
          first [discriminate Hb
                | injection Ha as <-; injection Hb as <-; reflexivity]|]).
  discriminate Ha.
Qed.

Lemma rsi_of_falling_prices_witness :
  (column_of falling_days15 0%nat "價格" = Some (fin falling15) /\
   decreasing falling15) /\
  exists (l' : loc) (w' : World) (rsi : Series),
    calculate_macd_rsi 0%nat falling_days15 = (Ret l', w') /\
    column_of w' l' "RSI" = Some rsi /\
    forall i : nat, (13 <= i)%nat -> (i < length falling15)%nat ->
      exists x : Q, rsi !! i = Some (Fin x) /\ x == 0.
Proof.
  split; [split; [reflexivity|apply falling15_decreasing]|].
  apply (rsi_of_falling_prices falling_days15 0%nat falling15);
    [reflexivity|apply falling15_decreasing].
Defined.

(** *** More on save_history *)

Lemma save_history_raises (now coin_id coin_name : string) (w : World) (l : loc)
    (df : DataFrame) :
  heap w !! l = Some df ->
  assoc "價格" df = None \/ assoc "價格" df = Some [] ->
  save_history now coin_id coin_name l w
  = (Raise (match assoc "價格" df with
            | Some _ => IndexError
            | None => KeyError "價格"
            end), w).
Proof.
  intros Hl [Hp|Hp]; rewrite Hp; unfold save_history.
  - apply bind_raise. unfold getitem, bind, deref, raise. now rewrite Hl, Hp.
  - rewrite (bind_ret _ _ _ _ _ (getitem_run w l df _ _ Hl Hp)).
    apply bind_raise. reflexivity.
Qed.

(** X9.  save_history on a frame that has no price column, or whose price
    column is empty, raises (KeyError for the column, IndexError for
    iloc[-1]) before it touches the history file: the world is exactly as
    it was. *)
Theorem save_history_without_prices (now coin_id coin_name : string)
    (w : World) (l : loc) (df : DataFrame) :
  heap w !! l = Some df ->
  assoc "價格" df = None \/ assoc "價格" df = Some [] ->
  save_history now coin_id coin_name l w
  = (Raise (match assoc "價格" df with
            | Some _ => IndexError
            | None => KeyError "價格"
            end), w).
Proof. apply save_history_raises. Qed.

Lemma save_history_without_prices_witness :
  (heap no_rows_days !! 0%nat = Some [("時間戳", []); ("價格", [])] /\
   (assoc "價格" [("時間戳", []); ("價格", @nil xfloat)] = None \/
    assoc "價格" [("時間戳", []); ("價格", @nil xfloat)] = Some [])) /\
  save_history "2024-01-01 00:00:00" "bitcoin" "Bitcoin" 0%nat no_rows_days
  = (Raise (match assoc "價格" [("時間戳", []); ("價格", @nil xfloat)] with
            | Some _ => IndexError
            | None => KeyError "價格"
            end), no_rows_days).
Proof.
  split; [split; [reflexivity|right; reflexivity]|].
  apply (save_history_without_prices "2024-01-01 00:00:00" "bitcoin" "Bitcoin"
           no_rows_days 0%nat [("時間戳", []); ("價格", [])]);
    [reflexivity|right; reflexivity].
Defined.

(** *** The query: fetch, indicators, record *)

(* the query after a fetch that returned the frame F *)
Lemma query_fetched (requests_get : Request -> py Response)
    (DataFrame_other : json -> string -> string -> py DataFrame)
    (now coin_id coin_name : string) (days : Z) (w : World) (F : DataFrame) :
  get_price_history requests_get DataFrame_other coin_id days "usd" w
  = (Ret (Some (length (heap w))), set_heap w (heap w ++ [F])) ->
  query requests_get DataFrame_other now coin_id coin_name days w
  = if negb (df_empty F)
    then bind (calculate_macd_rsi (length (heap w)))
              (fun df => bind (save_history now coin_id coin_name df)
                              (fun _ => ret true))
              (set_heap w (heap w ++ [F]))
    else (Ret false, set_heap w (heap w ++ [F])).
Proof.
  intros Hrun. unfold query. rewrite (bind_ret _ _ _ _ _ Hrun).
  erewrite bind_ret.
  2:{ unfold deref. cbn [heap set_heap]. rewrite heap_top. reflexivity. }
  now destruct (df_empty F).
Qed.

Lemma query_faulted (requests_get : Request -> py Response)
    (DataFrame_other : json -> string -> string -> py DataFrame)
    (now coin_id coin_name : string) (days : Z) (w : World) (e : exn) :
  fetch_fault requests_get DataFrame_other (price_request coin_id days "usd") e ->
  exists h : list DataFrame,
    query requests_get DataFrame_other now coin_id coin_name days w
    = (Ret false,
       mkWorld (heap w ++ h)
         (log w ++ [ErrorLine "get_price_history error: " e]) (history w)).
Proof.
  intros Hfault.
  destruct (get_price_history_fault _ _ _ _ _ w e Hfault) as [h Hrun].
  exists h. unfold query. now rewrite (bind_ret _ _ _ _ _ Hrun).
Qed.

(* indicators and record for a fetched frame that has rows *)
Lemma query_records (now coin_id coin_name : string) (w1 : World) (l : loc)
    (F : DataFrame) (price : Series) (latest : xfloat) :
  heap w1 !! l = Some F -> assoc "價格" F = Some price ->
  last price = Some latest ->
  exists ma5 : float,
    bind (calculate_macd_rsi l)
         (fun df => bind (save_history now coin_id coin_name df)
                         (fun _ => ret true)) w1
    = (Ret true,
       mkWorld (heap w1 ++ [indicator_frame F price]) (log w1)
         (appended (history w1)
            (mkRow coin_name coin_id now latest ma5
               (if PrimFloat.ltb (Binary64.to_f64 latest) ma5
                then "買進" else "賣出")))).
Proof.
  intros Hl Hp Hlast.
  set (w2 := set_heap w1 (heap w1 ++ [indicator_frame F price])).
  assert (Hcol : column_of w2 (length (heap w1)) "價格" = Some price).
  { unfold w2. rewrite column_of_top, indicator_frame_other; [exact Hp|].
    unfold indicator_columns. simpl. intuition discriminate. }
  destruct (save_history_appends now coin_id coin_name w2 _ price latest
              Hcol Hlast) as [ma5 [_ Hsave]].
  exists ma5.
  rewrite (bind_ret _ _ _ _ _ (calculate_macd_rsi_run w1 l F price Hl Hp)).
  fold w2. now rewrite (bind_ret _ _ _ _ _ Hsave).
Qed.

(** X12.  A query whose response carries at least one row [t, p] of
    numbers, with timestamps that are whole numbers of milliseconds within
    9 * 10^12 of the epoch, succeeds: it returns true, logs nothing,
    leaves two new frames (the fetched one and a copy that still has its
    timestamp and price columns) and writes the history file anew: the
    rows read back from the old file, then one record with the coin's id
    and name, the time of the call and the last price received. *)
Theorem query_with_rows_records_the_last_price
    (requests_get : Request -> py Response)
    (DataFrame_other : json -> string -> string -> py DataFrame)
    (now coin_id coin_name : string) (days : Z) (w : World)
    (res : Response) (data : json) (tps : list (xfloat * xfloat))
    (latest : xfloat) :
  requests_get (price_request coin_id days "usd") = Ret res ->
  res_json res = Ret data ->
  json_getitem data "prices" = Ret (JArray (map row_json tps)) ->
  forallb epoch_ms (map fst tps) = true ->
  last (map snd tps) = Some latest ->
  exists (row : HistoryRow) (w' : World) (F' : DataFrame),
    query requests_get DataFrame_other now coin_id coin_name days w
    = (Ret true, w') /\
    history w' = appended (history w) row /\
    row_id row = coin_id /\ row_coin row = coin_name /\ row_time row = now /\
    row_latest row = latest /\
    log w' = log w /\
    heap w'
    = heap w ++ [[("時間戳", map fst tps); ("價格", map snd tps)]; F'] /\
    assoc "時間戳" F' = Some (map fst tps) /\
    assoc "價格" F' = Some (map snd tps).
Proof.
  intros Hget Hjson Hprices Hms Hlast.
  set (F := rows_frame tps).
  pose proof (numeric_rows_frame requests_get DataFrame_other coin_id days "usd"
                w res data tps Hget Hjson Hprices Hms) as Hrun.
  fold F in Hrun.
  rewrite (query_fetched _ _ now coin_id coin_name days w F Hrun).
  assert (Hne : df_empty F = false).
  { unfold df_empty, F, rows_frame, nrows. rewrite length_map.
    destruct tps; [discriminate Hlast|reflexivity]. }
  rewrite Hne. cbn [negb].
  destruct (query_records now coin_id coin_name
              (set_heap w (heap w ++ [F])) (length (heap w)) F
              (map snd tps) latest)
    as [ma5 Hq]; [apply heap_top|reflexivity|exact Hlast|].
  rewrite Hq. eexists. eexists. exists (indicator_frame F (map snd tps)).
  split; [reflexivity|].
  cbn [history row_id row_coin row_time row_latest log heap set_heap].
  do 6 (split; [reflexivity|]).
  split; [now rewrite <- app_assoc|].
  split; (rewrite indicator_frame_other;
          [reflexivity|unfold indicator_columns; simpl; intuition discriminate]).
Qed.

Lemma query_with_rows_records_the_last_price_witness :
  (three_rows_server (price_request "bitcoin" 7 "usd")
   = Ret (mkResponse 200
            (Ret (JObject [("prices", JArray (map row_json three_rows))]))) /\
   res_json (mkResponse 200
               (Ret (JObject [("prices", JArray (map row_json three_rows))])))
   = Ret (JObject [("prices", JArray (map row_json three_rows))]) /\
   json_getitem (JObject [("prices", JArray (map row_json three_rows))]) "prices"
   = Ret (JArray (map row_json three_rows)) /\
   forallb epoch_ms (map fst three_rows) = true /\
   last (map snd three_rows) = Some (Fin 101)) /\
  exists (row : HistoryRow) (w' : World) (F' : DataFrame),
    query three_rows_server strict_DataFrame "2024-01-01 00:00:00" "bitcoin"
      "Bitcoin" 7 empty_world
    = (Ret true, w') /\
    history w' = appended (history empty_world) row /\
    row_id row = "bitcoin" /\ row_coin row = "Bitcoin" /\
    row_time row = "2024-01-01 00:00:00" /\
    row_latest row = Fin 101 /\
    log w' = log empty_world /\
    heap w'
    = heap empty_world
      ++ [[("時間戳", map fst three_rows); ("價格", map snd three_rows)]; F'] /\
    assoc "時間戳" F' = Some (map fst three_rows) /\
    assoc "價格" F' = Some (map snd three_rows).
Proof.
  split; [repeat split|].
  apply (query_with_rows_records_the_last_price three_rows_server
           strict_DataFrame "2024-01-01 00:00:00" "bitcoin" "Bitcoin" 7
           empty_world
           (mkResponse 200
              (Ret (JObject [("prices", JArray (map row_json three_rows))])))
           (JObject [("prices", JArray (map row_json three_rows))])
           three_rows (Fin 101)); reflexivity.
Defined.

(** X13.  A query whose fetch meets a fault returns false: it computes no
    indicators, leaves the history file as it was and logs the one error
    line of the fetch; the frames that existed are untouched. *)
Theorem query_with_a_fault_records_nothing
    (requests_get : Request -> py Response)
    (DataFrame_other : json -> string -> string -> py DataFrame)
    (now coin_id coin_name : string) (days : Z) (w : World) (e : exn) :
  fetch_fault requests_get DataFrame_other (price_request coin_id days "usd") e ->
  exists w' : World,
    query requests_get DataFrame_other now coin_id coin_name days w
    = (Ret false, w') /\
    history w' = history w /\
    log w' = log w ++ [ErrorLine "get_price_history error: " e] /\
    (forall (l0 : loc) (df0 : DataFrame),
        heap w !! l0 = Some df0 -> heap w' !! l0 = Some df0).
Proof.
  intros Hfault.
  destruct (query_faulted requests_get DataFrame_other now coin_id coin_name
              days w e Hfault) as [h Hrun].
  eexists. split; [exact Hrun|]. cbn [history log heap].
  split; [reflexivity|]. split; [reflexivity|].
  intros l0 df0 H0. now apply lookup_app_l_Some.
Qed.

Lemma query_with_a_fault_records_nothing_witness :
  fetch_fault silent_server strict_DataFrame
    (price_request "bitcoin" 7 "usd") Timeout /\
  exists w' : World,
    query silent_server strict_DataFrame "2024-01-01 00:00:00" "bitcoin"
      "Bitcoin" 7 empty_world
    = (Ret false, w') /\
    history w' = history empty_world /\
    log w' = log empty_world ++ [ErrorLine "get_price_history error: " Timeout] /\
    (forall (l0 : loc) (df0 : DataFrame),
        heap empty_world !! l0 = Some df0 -> heap w' !! l0 = Some df0).
Proof.
  split; [apply fault_request; reflexivity|].
  apply (query_with_a_fault_records_nothing silent_server strict_DataFrame
           "2024-01-01 00:00:00" "bitcoin" "Bitcoin" 7 empty_world Timeout).
  apply fault_request. reflexivity.
Defined.

Lemma last_None_nil {A : Type} (l : list A) : last l = None -> l = [].
Proof.
  destruct l as [|x l]; [reflexivity|]. intros H.
  rewrite last_lookup in H. apply lookup_ge_None_1 in H. simpl in H. lia.
Qed.

(** X14.  Whatever the network and the library do, a query never changes
    a frame that existed, and it touches the history file exactly when it
    returns true: the file is then written anew, with the rows read back
    from the old file followed by one record that has the coin's id and
    name and the time of the call.  In every other outcome (it returns
    false, or an exception of calculate_macd_rsi or save_history escapes)
    the history file is not written. *)
Theorem query_history_discipline
    (requests_get : Request -> py Response)
    (DataFrame_other : json -> string -> string -> py DataFrame)
    (now coin_id coin_name : string) (days : Z) (w : World) :
  exists (r : py bool) (w' : World),
    query requests_get DataFrame_other now coin_id coin_name days w = (r, w') /\
    (forall (l0 : loc) (df0 : DataFrame),
        heap w !! l0 = Some df0 -> heap w' !! l0 = Some df0) /\
    ((r = Ret true /\
      exists row : HistoryRow,
        history w' = appended (history w) row /\
        row_id row = coin_id /\ row_coin row = coin_name /\ row_time row = now) \/
     (r <> Ret true /\ history w' = history w)).
Proof.
  destruct (fetch_outcome requests_get DataFrame_other
              (price_request coin_id days "usd"))
    as [[e Hfault] | (res & data & prices & frame & t' & H1 & H2 & H3 & H4 & H5)].
  - destruct (query_faulted requests_get DataFrame_other now coin_id coin_name
                days w e Hfault) as [h Hrun].
    eexists. eexists. split; [exact Hrun|]. cbn [heap history].
    split; [intros l0 df0 H0; now apply lookup_app_l_Some|].
    right. split; [discriminate|reflexivity].
  - set (F := df_set "時間戳" t' frame).
    pose proof (get_price_history_ok requests_get DataFrame_other coin_id days
                  "usd" w res data prices frame t' H1 H2 H3 H4 H5) as Hrun.
    fold F in Hrun.
    rewrite (query_fetched _ _ now coin_id coin_name days w F Hrun).
    set (w1 := set_heap w (heap w ++ [F])).
    assert (Hold : forall (l0 : loc) (df0 : DataFrame) (h : list DataFrame),
               heap w !! l0 = Some df0 -> ((heap w ++ [F]) ++ h) !! l0 = Some df0).
    { intros l0 df0 h H0. now apply lookup_app_l_Some, lookup_app_l_Some. }
    destruct (df_empty F); cbn [negb].
    1:{ eexists. eexists. split; [reflexivity|]. cbn [heap history w1 set_heap].
        split; [intros l0 df0 H0; now apply lookup_app_l_Some|].
        right. split; [discriminate|reflexivity]. }
    assert (Htop : heap w1 !! length (heap w) = Some F) by apply heap_top.
    destruct (assoc "價格" F) as [price|] eqn:Hp.
    2:{ rewrite (bind_raise _ _ _ _ _
                   (calculate_macd_rsi_raises w1 _ F Htop Hp)).
        eexists. eexists. split; [reflexivity|]. cbn [heap history w1 set_heap].
        split; [intros l0 df0 H0; now apply (Hold l0 df0 [F])|].
        right. split; [discriminate|reflexivity]. }
    destruct (last price) as [latest|] eqn:Hlast.
    + destruct (query_records now coin_id coin_name w1 _ F price latest
                  Htop Hp Hlast) as [ma5 Hq].
      rewrite Hq. eexists. eexists. split; [reflexivity|].
      cbn [heap history w1 set_heap].
      split; [intros l0 df0 H0; now apply (Hold l0 df0 [indicator_frame F price])|].
      left. split; [reflexivity|]. eexists. split; [reflexivity|].
      cbn [row_id row_coin row_time]. auto.
    + apply last_None_nil in Hlast. subst price.
      rewrite (bind_ret _ _ _ _ _ (calculate_macd_rsi_run w1 _ F [] Htop Hp)).
      set (w2 := set_heap w1 (heap w1 ++ [indicator_frame F []])).
      assert (Hsave : save_history now coin_id coin_name (length (heap w1)) w2
                      = (Raise IndexError, w2)).
      { assert (Hp2 : assoc "價格" (indicator_frame F []) = Some []).
        { rewrite indicator_frame_other; [exact Hp|].
          unfold indicator_columns. simpl. intuition discriminate. }
        rewrite (save_history_raises now coin_id coin_name w2 _
                   (indicator_frame F [])); [now rewrite Hp2|apply heap_top|].
        now right. }
      rewrite (bind_raise _ _ _ _ _ Hsave).
      eexists. eexists. split; [reflexivity|]. cbn [heap history w2 w1 set_heap].
      split; [intros l0 df0 H0; now apply (Hold l0 df0 [indicator_frame F []])|].
      right. split; [discriminate|reflexivity].
Qed.

(** *** The coin that the dashboard queries *)

(** X15.  When the selected label is one of the options, the loop finds
    the first coin of the list that carries this label and takes its id
    and name; a later coin with the same name and symbol is never
    reached. *)
Theorem selected_coin_is_the_first_match (upper : string -> string)
    (filtered : list Coin) (s : string) :
  In s (options upper filtered) ->
  exists (before : list Coin) (coin : Coin) (after : list Coin),
    filtered = before ++ coin :: after /\
    option_label upper coin = s /\
    Forall (fun c => option_label upper c <> s) before /\
    selected_coin upper filtered (Some s) = (coin_id_of coin, coin_name_of coin).
Proof.
  induction filtered as [|c rest IH]; intros Hin; [destruct Hin|].
  cbn [selected_coin].
  destruct (decide (Some (option_label upper c) = Some s)) as [Heq|Hne].
  - exists [], c, rest. injection Heq as Heq.
    split; [reflexivity|]. split; [exact Heq|]. split; [constructor|reflexivity].
  - assert (Hc : option_label upper c <> s) by congruence.
    destruct Hin as [Hin|Hin]; [contradiction|].
    destruct (IH Hin) as (before & coin & after & -> & Hl & Hb & Hsel).
    exists (c :: before), coin, after.
    split; [reflexivity|]. split; [exact Hl|].
    split; [now constructor|exact Hsel].
Qed.

Lemma selected_coin_is_the_first_match_witness :
  In "Ethereum (ETH)" (options ascii_upper two_coins) /\
  exists (before : list Coin) (coin : Coin) (after : list Coin),
    two_coins = before ++ coin :: after /\
    option_label ascii_upper coin = "Ethereum (ETH)" /\
    Forall (fun c => option_label ascii_upper c <> "Ethereum (ETH)") before /\
    selected_coin ascii_upper two_coins (Some "Ethereum (ETH)")
    = (coin_id_of coin, coin_name_of coin).
Proof.
  split; [right; left; reflexivity|].
  apply (selected_coin_is_the_first_match ascii_upper two_coins "Ethereum (ETH)").
  right. left. reflexivity.
Defined.

(** X16.  When nothing is selected (there is no option), or the selected
    label is not the label of any coin of the list, the coin id and the
    coin name stay the empty strings they were initialised to. *)
Theorem no_match_leaves_the_coin_id_empty (upper : string -> string)
    (filtered : list Coin) (selected : option string) :
  (forall s : string, selected = Some s -> ~ In s (options upper filtered)) ->
  selected_coin upper filtered selected = ("", "").
Proof.
  induction filtered as [|c rest IH]; intros Hno; [reflexivity|].
  cbn [selected_coin].
  destruct (decide (Some (option_label upper c) = selected)) as [Heq|Hne].
  - exfalso. apply (Hno (option_label upper c)); [now symmetry|]. now left.
  - apply IH. intros s Hs Hin. apply (Hno s Hs). now right.
Qed.

Lemma no_match_leaves_the_coin_id_empty_witness :
  (forall s : string, None = Some s -> ~ In s (options ascii_upper two_coins)) /\
  selected_coin ascii_upper two_coins None = ("", "").
Proof.
  split; [discriminate|].
  apply (no_match_leaves_the_coin_id_empty ascii_upper two_coins None).
  discriminate.
Defined.

(** *** The candlestick chart *)

Lemma draw_candlestick_chart_run (w : World) (l : loc) (df : DataFrame)
    (coin_name : string) (ts price : Series) :
  heap w !! l = Some df ->
  assoc "時間戳" df = Some ts -> assoc "價格" df = Some price ->
  draw_candlestick_chart l coin_name w
  = (Ret (mkCandlestick ts price price price price),
     set_heap w (heap w ++ [candle_frame df price])).
Proof.
  intros Hl Ht Hp. unfold draw_candlestick_chart.
  rewrite (bind_ret _ _ _ _ _ (copy_run w l df Hl)).
  set (l' := length (heap w)).
  assert (Hstep : forall (d : DataFrame) (k : string) (v : Series) (B : Type)
                    (c : unit -> M B),
             bind (setitem l' k v) c (set_heap w (heap w ++ [d]))
             = c tt (set_heap w (heap w ++ [df_set k v d]))).
  { intros d k v B c. erewrite bind_ret.
    2:{ apply setitem_run. simpl. apply heap_top. }
    simpl. unfold set_heap, l'. simpl. now rewrite heap_set_top. }
  assert (Hget : forall (d : DataFrame) (k : string) (s : Series) (B : Type)
                   (c : Series -> M B),
             assoc k d = Some s ->
             bind (getitem l' k) c (set_heap w (heap w ++ [d]))
             = c s (set_heap w (heap w ++ [d]))).
  { intros d k s B c Hk. erewrite bind_ret; [reflexivity|].
    eapply getitem_run; [apply heap_top | exact Hk]. }
  rewrite (Hget _ _ price) by exact Hp.
  rewrite Hstep.
  rewrite (Hget _ _ price) by (rewrite assoc_df_set_ne by discriminate; exact Hp).
  rewrite Hstep.
  rewrite (Hget _ _ price) by (rewrite !assoc_df_set_ne by discriminate; exact Hp).
  rewrite Hstep.
  rewrite (Hget _ _ price) by (rewrite !assoc_df_set_ne by discriminate; exact Hp).
  rewrite Hstep. fold (candle_frame df price).
  rewrite (Hget _ _ ts)
    by (unfold candle_frame; rewrite !assoc_df_set_ne by discriminate; exact Ht).
  rewrite (Hget _ _ price)
    by (unfold candle_frame; rewrite !assoc_df_set_ne by discriminate;
        apply assoc_df_set_eq).
  rewrite (Hget _ _ price)
    by (unfold candle_frame; rewrite !assoc_df_set_ne by discriminate;
        apply assoc_df_set_eq).
  rewrite (Hget _ _ price)
    by (unfold candle_frame; rewrite !assoc_df_set_ne by discriminate;
        apply assoc_df_set_eq).
  rewrite (Hget _ _ price) by (unfold candle_frame; apply assoc_df_set_eq).
  reflexivity.
Qed.

(** X17.  The candlestick chart is drawn from a copy: every frame that
    existed, the input among them, is unchanged, and so are the log and
    the history file.  Its trace has the timestamps on the x axis, and
    open, high, low and close are all the price column itself, so every
    candle is a flat line at the price. *)
Theorem candlesticks_are_flat (w : World) (l : loc) (coin_name : string)
    (ts price : Series) :
  column_of w l "時間戳" = Some ts ->
  column_of w l "價格" = Some price ->
  exists w' : World,
    draw_candlestick_chart l coin_name w
    = (Ret (mkCandlestick ts price price price price), w') /\
    (forall (l0 : loc) (df0 : DataFrame),
        heap w !! l0 = Some df0 -> heap w' !! l0 = Some df0) /\
    log w' = log w /\ history w' = history w.
Proof.
  intros Ht Hp. destruct (price_column_inv _ _ _ Hp) as [df [Hl Hpd]].
  unfold column_of in Ht. rewrite Hl in Ht.
  eexists. split; [now apply (draw_candlestick_chart_run w l df)|].
  cbn [heap log history set_heap].
  split; [intros l0 df0 H0; now apply lookup_app_l_Some|]. auto.
Qed.

Lemma candlesticks_are_flat_witness :
  (column_of days3 0%nat "時間戳" = Some (fin [0; 1; 2]) /\
   column_of days3 0%nat "價格" = Some (fin [100; 102; 101])) /\
  exists w' : World,
    draw_candlestick_chart 0%nat "Bitcoin" days3
    = (Ret (mkCandlestick (fin [0; 1; 2]) (fin [100; 102; 101])
              (fin [100; 102; 101]) (fin [100; 102; 101])
              (fin [100; 102; 101])), w') /\
    (forall (l0 : loc) (df0 : DataFrame),
        heap days3 !! l0 = Some df0 -> heap w' !! l0 = Some df0) /\
    log w' = log days3 /\ history w' = history days3.
Proof.
  split; [split; reflexivity|].
  apply (candlesticks_are_flat days3 0%nat "Bitcoin"); reflexivity.
Defined.
